(** * MABackend: the authentication routes of [src/index.js]

    A shallow embedding of the Express application of [src/index.js]
    (and of the two later revisions kept in [src/unnamed/part_000]):
    the [User] model, the routes [POST /api/register], [POST /api/login]
    and [POST /api/videos/upload], and the three libraries the routes
    drive (mongoose, bcryptjs, jsonwebtoken), followed by the
    properties of the specification.

    Route handlers are written in a small state-and-exception monad:
    the state is the [User] collection, the sequence of library calls
    made so far and the server console; an exception is a thrown
    JavaScript error, caught by the [try]/[catch] of each route. *)

From Stdlib Require Import String Ascii List ZArith Lia Bool.
From Stdlib Require Import Sorted Permutation.
Import ListNotations.
Open Scope string_scope.
Set Warnings "-register-all".

(** ** Values exchanged with the client *)

Definition ObjectId := nat.

(** A thrown JavaScript error: its [name] and its [message]. *)
Record JsError : Type := mkError {
  err_name : string;
  err_message : string
}.

(** The payload of a token: [{ userId, iat, exp }], times in seconds. *)
Record JwtPayload : Type := mkPayload {
  userId : ObjectId;
  iat : Z;
  exp : Z
}.

Record Jwt : Type := mkJwt {
  payload : JwtPayload;
  signature : string
}.

(** The objects given to [res.json]. *)
Inductive json : Type :=
| JUndefined
| JStr (s : string)
| JNum (n : Z)
| JId (i : ObjectId)
| JToken (t : Jwt)
| JErr (e : JsError)
| JObj (fields : list (string * json)).

Fixpoint assoc (k : string) (fields : list (string * json)) : option json :=
  match fields with
  | [] => None
  | (k', v) :: rest => if String.eqb k k' then Some v else assoc k rest
  end.

(** [o[k]]: the property [k] of a response object. *)
Definition prop (k : string) (o : json) : option json :=
  match o with
  | JObj fields => assoc k fields
  | _ => None
  end.

Record Response : Type := mkResponse {
  status : nat;
  body : json
}.

Definition message (code : nat) (msg : string) : Response :=
  mkResponse code (JObj [("message", JStr msg)]).

(** ** The User model (index.js, lines 32-39) *)

Record User : Type := mkUser {
  _id : ObjectId;
  username : string;
  email : string;
  password : string;
  videos : Z;
  followers : Z;
  following : Z
}.

(** The collection, in insertion order, and the next identifier the
    driver hands out. *)
Record Store : Type := mkStore {
  docs : list User;
  next_oid : ObjectId
}.

Definition empty_store : Store := mkStore [] 0.

(** The filters the routes pass to [User.findOne]. *)
Inductive Query : Type :=
| ByUsername (u : string)
| ByEmailOrUsername (e u : string).

Definition matches (q : Query) (d : User) : bool :=
  match q with
  | ByUsername u => String.eqb (username d) u
  | ByEmailOrUsername e u => String.eqb (email d) e || String.eqb (username d) u
  end.

Definition findOne (q : Query) (s : Store) : option User :=
  find (matches q) (docs s).

(** What [res.json] shows of a document: every stored path. *)
Definition toObject (d : User) : list (string * json) :=
  [ ("_id", JId (_id d));
    ("username", JStr (username d));
    ("email", JStr (email d));
    ("password", JStr (password d));
    ("videos", JNum (videos d));
    ("followers", JNum (followers d));
    ("following", JNum (following d));
    ("__v", JNum 0) ].

(** ** The process: environment, outside world, server state *)

Record Env : Type := mkEnv {
  JWT_SECRET : option string
}.

(** [a || b] on strings that may be undefined. *)
Definition or_else (a : option string) (b : string) : string :=
  match a with
  | Some s => if String.eqb s "" then b else s
  | None => b
  end.

(** The library calls a route can make. *)
Inductive Call : Type :=
| CFindOne | CHash | CCreate | CCompare | CSign | CUploadStream.

Definition Call_eqb (a b : Call) : bool :=
  match a, b with
  | CFindOne, CFindOne | CHash, CHash | CCreate, CCreate
  | CCompare, CCompare | CSign, CSign | CUploadStream, CUploadStream => true
  | _, _ => false
  end.

Record UploadResult : Type := mkUploadResult {
  secure_url : string;
  public_id : string
}.

(** What one request meets outside the program: the clock in seconds
    ([Math.floor(Date.now() / 1000)]), the 22 characters of random salt
    bcrypt draws, the failure (if any) of each library call, and the
    answer of the media host. *)
Record Oracle : Type := mkOracle {
  now : Z;
  random_salt : string;
  fault : Call -> option JsError;
  cloudinary : JsError + UploadResult
}.

Definition healthy (o : Oracle) : Prop := forall c, fault o c = None.

Inductive LogLine : Type :=
| LogInfo (text : string)
| LogError (label : string) (e : option JsError).

Record World : Type := mkWorld {
  store : Store;
  calls : list Call;
  console : list LogLine
}.

Definition boot (s : Store) : World := mkWorld s [] [].

(** ** The monad of route handlers *)

Definition M (A : Type) : Type := World -> (JsError + A) * World.

Definition ret {A} (a : A) : M A := fun w => (inr a, w).

Definition bind {A B} (m : M A) (k : A -> M B) : M B :=
  fun w => match m w with
           | (inr a, w') => k a w'
           | (inl e, w') => (inl e, w')
           end.

Definition throw {A} (e : JsError) : M A := fun w => (inl e, w).

Definition try_catch {A} (m : M A) (handler : JsError -> M A) : M A :=
  fun w => match m w with
           | (inr a, w') => (inr a, w')
           | (inl e, w') => handler e w'
           end.

Declare Scope js_scope.
Delimit Scope js_scope with js.
Notation "x <- m ;; k" := (bind m (fun x => k))
  (at level 100, m at next level, right associativity) : js_scope.
Notation "m ;; k" := (bind m (fun _ => k))
  (at level 100, right associativity) : js_scope.
Notation "'try' m 'catch' h" := (try_catch m h)
  (at level 100, m at level 99) : js_scope.
Open Scope js_scope.

(** A library call: it is recorded, and throws if the outside world
    makes it fail. *)
Definition library {A} (o : Oracle) (c : Call) (k : M A) : M A :=
  fun w =>
    let w' := mkWorld (store w) (calls w ++ [c]) (console w) in
    match fault o c with
    | Some e => (inl e, w')
    | None => k w'
    end.

Definition console_log (text : string) : M unit :=
  fun w => (inr tt, mkWorld (store w) (calls w) (console w ++ [LogInfo text])).

Definition console_error (label : string) (e : option JsError) : M unit :=
  fun w => (inr tt, mkWorld (store w) (calls w) (console w ++ [LogError label e])).

(** Running a route: the response sent, if one is ([None] when an
    error escapes the handler, which leaves the request unanswered). *)
Definition run (m : M Response) (w : World) : option Response * World :=
  match m w with
  | (inr r, w') => (Some r, w')
  | (inl _, w') => (None, w')
  end.

(** ** bcryptjs *)

Definition digit (n : nat) : ascii := ascii_of_nat (48 + n).

Definition two_digits (n : nat) : string :=
  String (digit (n / 10)) (String (digit (n mod 10)) "").

Definition digit_value (c : ascii) : nat := nat_of_ascii c - 48.

Definition parse_two_digits (s : string) : nat :=
  match s with
  | String a (String b _) => 10 * digit_value a + digit_value b
  | _ => 0
  end.

(** ** jsonwebtoken: time spans *)

Definition is_digit (c : ascii) : bool :=
  (48 <=? nat_of_ascii c)%nat && (nat_of_ascii c <=? 57)%nat.

Fixpoint leading_number (s : string) (acc : Z) : Z * string :=
  match s with
  | String c rest =>
      if is_digit c
      then leading_number rest (10 * acc + Z.of_nat (digit_value c))
      else (acc, s)
  | EmptyString => (acc, s)
  end.

(** The span in seconds of a string such as ["24h"]: a number and a
    unit, as the [ms] package reads it. *)
Definition timespan (s : string) : option Z :=
  match s with
  | EmptyString => None
  | String c _ =>
      if is_digit c then
        let '(n, unit) := leading_number s 0 in
        if String.eqb unit "s" then Some n
        else if String.eqb unit "m" then Some (n * 60)%Z
        else if String.eqb unit "h" then Some (n * 3600)%Z
        else if String.eqb unit "d" then Some (n * 86400)%Z
        else None
      else None
  end.

Section Backend.

(** The two cryptographic cores are left abstract: the Blowfish-based
    digest of bcrypt (cost, salt, plaintext) and the HMAC-SHA256 of
    jsonwebtoken (key, payload). *)
Variable eksblowfish : nat -> string -> string -> string.
Variable HS256 : string -> JwtPayload -> string.

(** Modelled from the spec: bcryptjs is a dependency, not under src/.
    [hash] is randomized per call by its salt, and the hash string
    carries the cost and the salt in front of the digest
    ([$2a$10$], 22 characters of salt, the digest). *)
Definition hashString (rounds : nat) (salt plaintext : string) : string :=
  "$2a$" ++ two_digits rounds ++ "$" ++ salt ++ eksblowfish rounds salt plaintext.

(** Modelled from the spec: bcryptjs is a dependency, not under src/.
    [verify] recomputes the hash with the cost and salt read off the
    hash string and compares; it returns false on anything else. *)
Definition verify (plaintext hash : string) : bool :=
  String.eqb hash
    (hashString (parse_two_digits (substring 4 2 hash)) (substring 7 22 hash) plaintext).

Definition bcrypt_hash (o : Oracle) (plaintext : string) (rounds : nat) : M string :=
  library o CHash (ret (hashString rounds (random_salt o) plaintext)).

Definition bcrypt_compare (o : Oracle) (plaintext hash : string) : M bool :=
  library o CCompare (ret (verify plaintext hash)).

(** [jwt.sign(payload, secret, { expiresIn })] *)
Definition sign (uid : ObjectId) (secret : string) (span : Z) (clock : Z) : Jwt :=
  let p := mkPayload uid clock (clock + span) in
  mkJwt p (HS256 secret p).

Definition jwt_sign (o : Oracle) (uid : ObjectId) (secret expiresIn : string) : M Jwt :=
  library o CSign
    match timespan expiresIn with
    | Some span => ret (sign uid secret span (now o))
    | None => throw (mkError "Error" "bad expiresIn")
    end.

(** Modelled from the spec: no route calls [jwt.verify]; this is the
    Token Issuer's [validate]: Invalid ([None]) when the signature does
    not verify or the expiry has passed, the subject otherwise. *)
Definition validate (secret : string) (clock : Z) (t : Jwt) : option ObjectId :=
  if String.eqb (signature t) (HS256 secret (payload t)) then
    if (exp (payload t) <=? clock)%Z then None
    else Some (userId (payload t))
  else None.

(** ** mongoose *)

Definition User_findOne (o : Oracle) (q : Query) : M (option User) :=
  library o CFindOne (fun w => (inr (findOne q (store w)), w)).

(** [User.create]: the schema's [required] paths are validated, the
    defaults filled in, and the unique indexes on [username] and
    [email] refuse a duplicate. *)
Definition User_create (o : Oracle) (uname mail hashed : string) : M User :=
  library o CCreate (fun w =>
    if String.eqb uname "" || String.eqb mail "" || String.eqb hashed "" then
      (inl (mkError "ValidationError" "User validation failed"), w)
    else if existsb (fun d => String.eqb (username d) uname || String.eqb (email d) mail)
                    (docs (store w)) then
      (inl (mkError "MongoServerError" "E11000 duplicate key error"), w)
    else
      let s := store w in
      let d := mkUser (next_oid s) uname mail hashed 0 0 0 in
      (inr d, mkWorld (mkStore (docs s ++ [d]) (S (next_oid s))) (calls w) (console w))).

(** ** The routes *)

(** The three revisions of the file: [src/index.js] and the two kept in
    [src/unnamed/part_000]. Register and login differ only in the
    [user] they put in the response. *)
Inductive Revision : Type := index_js | part_000_first | part_000_second.

Definition user_json (rev : Revision) (u : User) : json :=
  match rev with
  | index_js | part_000_first => JObj (toObject u)
  | part_000_second => JObj (toObject u ++ [("id", JId (_id u))])
  end.

(** The body of a register request: each field is a string, or is
    absent ([undefined] once destructured). *)
Record RegisterBody : Type := mkRegisterBody {
  reg_username : option string;
  reg_email : option string;
  reg_password : option string
}.

(** The body of a login request supplies both fields, as strings. *)
Record LoginBody : Type := mkLoginBody {
  login_username : string;
  login_password : string
}.

(** [!x] for a body field: undefined or the empty string. *)
Definition falsy (x : option string) : bool :=
  match x with
  | None => true
  | Some s => String.eqb s ""
  end.

Definition str (x : option string) : string :=
  match x with
  | Some s => s
  | None => ""
  end.

Definition register_try (rev : Revision) (env : Env) (o : Oracle) (req : RegisterBody)
  : M Response :=
    (if falsy (reg_username req) || falsy (reg_email req) || falsy (reg_password req)
     then ret (message 400 "All fields required")
     else
       let uname := str (reg_username req) in
       let mail := str (reg_email req) in
       exists_ <- User_findOne o (ByEmailOrUsername mail uname) ;;
       match exists_ with
       | Some _ => ret (message 400 "User already exists")
       | None =>
           hashed <- bcrypt_hash o (str (reg_password req)) 10 ;;
           user <- User_create o uname mail hashed ;;
           token <- jwt_sign o (_id user) (or_else (JWT_SECRET env) "secret") "24h" ;;
           ret (mkResponse 201
                  (JObj [("token", JToken token); ("user", user_json rev user)]))
       end).

Definition register (rev : Revision) (env : Env) (o : Oracle) (req : RegisterBody)
  : M Response :=
  try register_try rev env o req
  catch (fun err =>
    console_error "Register error:" (Some err) ;;
    ret (message 500 "Registration failed")).

Definition login_try (rev : Revision) (env : Env) (o : Oracle) (req : LoginBody)
  : M Response :=
    (found <- User_findOne o (ByUsername (login_username req)) ;;
     match found with
     | None => ret (message 401 "User not found")
     | Some user =>
         isValid <- bcrypt_compare o (login_password req) (password user) ;;
         if negb isValid then ret (message 401 "Invalid password")
         else
           token <- jwt_sign o (_id user) (or_else (JWT_SECRET env) "secret") "24h" ;;
           ret (mkResponse 200
                  (JObj [("token", JToken token); ("user", user_json rev user)]))
     end).

Definition login (rev : Revision) (env : Env) (o : Oracle) (req : LoginBody)
  : M Response :=
  try login_try rev env o req
  catch (fun err =>
    console_error "Login error:" (Some err) ;;
    ret (message 500 "Login failed")).

(** [POST /api/videos/upload] of [src/index.js]. The stream to the media
    host either fails to start (an exception, caught by the route) or
    ends in the callback, with an error or with a result. The upload
    routes of the later revisions, which also store a Video record from
    the callback, are [upload_first] and [upload_second] below. *)
Record UploadRequest : Type := mkUploadRequest {
  file : option string;
  caption : option string;
  songId : option string;
  location : option string
}.

Definition field (x : option string) : json :=
  match x with
  | Some s => JStr s
  | None => JUndefined
  end.

Definition upload_stream (o : Oracle) (buffer : string) : M (JsError + UploadResult) :=
  library o CUploadStream (ret (cloudinary o)).

Definition upload_try (o : Oracle) (req : UploadRequest) : M Response :=
    (match file req with
     | None =>
         console_error "No video file uploaded" None ;;
         ret (message 400 "No file uploaded")
     | Some buffer =>
         outcome <- upload_stream o buffer ;;
         match outcome with
         | inl err =>
             console_error "Cloudinary upload error:" (Some err) ;;
             ret (mkResponse 500
                    (JObj [("message", JStr "Upload failed"); ("error", JErr err)]))
         | inr result =>
             console_log ("Upload success: " ++ secure_url result) ;;
             ret (mkResponse 200
                    (JObj [("message", JStr "Upload successful");
                           ("url", JStr (secure_url result));
                           ("public_id", JStr (public_id result));
                           ("metadata", JObj [("caption", field (caption req));
                                              ("songId", field (songId req));
                                              ("location", field (location req))])]))
         end
     end).

Definition upload (o : Oracle) (req : UploadRequest) : M Response :=
  console_log "Upload route hit" ;;
  try upload_try o req
  catch (fun err =>
    console_error "Upload error:" (Some err) ;;
    ret (mkResponse 500
           (JObj [("message", JStr "Upload error"); ("error", JErr err)]))).

(** ** The server: requests handled one after the other *)

(** The requests of the Auth Service, in any of the three revisions. *)
Inductive Request : Type :=
| Register (req : RegisterBody)
| Login (req : LoginBody).

Definition route (rev : Revision) (env : Env) (o : Oracle) (r : Request) : M Response :=
  match r with
  | Register req => register rev env o req
  | Login req => login rev env o req
  end.

(** Everything modelled: the two authentication routes of a revision,
    and the upload route of [src/index.js]. *)
Inductive Endpoint : Type :=
| Auth (rev : Revision) (r : Request)
| Upload (req : UploadRequest).

Definition dispatch (env : Env) (o : Oracle) (p : Endpoint) : M Response :=
  match p with
  | Auth rev r => route rev env o r
  | Upload req => upload o req
  end.

Fixpoint serve (rev : Revision) (env : Env) (rs : list (Oracle * Request)) (w : World)
  : list (option Response) * World :=
  match rs with
  | [] => ([], w)
  | (o, r) :: rest =>
      let '(a, w1) := run (route rev env o r) w in
      let '(answers, w2) := serve rev env rest w1 in
      (a :: answers, w2)
  end.

End Backend.

(** ** The later revisions: videos ([src/unnamed/part_000]) *)

(** The Video model; [userId] is a path of the second revision only. *)
Module Video.
Record doc : Type := mk {
  _id : ObjectId;
  userId : option ObjectId;
  url : string;
  public_id : string;
  caption : option string;
  songId : option string;
  location : option string;
  uploadedAt : Z
}.
End Video.

(** The queries on videos, and the lookup of a user by identifier. *)
Inductive VideoCall : Type :=
| CFindById | CVideoCreate | CVideoFind.

(** The server of the later revisions: the state of the authentication
    routes, the Video collection and the queries made on it. *)
Record Site : Type := mkSite {
  world : World;
  collection : list Video.doc;
  next_video : ObjectId;
  queries : list VideoCall
}.

(** What a video request meets outside the program: what [Oracle]
    has, the clock in milliseconds ([Date.now()]) and the failure (if
    any) of each query. *)
Record Outside : Type := mkOutside {
  oracle : Oracle;
  date_now : Z;
  video_fault : VideoCall -> option JsError
}.

(** What the video routes send: a JSON object, the array of videos of
    a listing, or the message and the video of an upload. *)
Inductive VideoBody : Type :=
| VJson (j : json)
| VList (videos : list Video.doc)
| VUploaded (msg : string) (video : Video.doc).

Record VideoResponse : Type := mkVideoResponse {
  video_status : nat;
  video_body : VideoBody
}.

Definition reply (code : nat) (msg : string) : VideoResponse :=
  mkVideoResponse code (VJson (JObj [("message", JStr msg)])).

Definition failure (code : nat) (msg : string) (err : JsError) : VideoResponse :=
  mkVideoResponse code (VJson (JObj [("message", JStr msg); ("error", JErr err)])).

(** The handler monad over [Site]. *)
Definition MV (A : Type) : Type := Site -> (JsError + A) * Site.

Definition vret {A} (a : A) : MV A := fun s => (inr a, s).

Definition vbind {A B} (m : MV A) (k : A -> MV B) : MV B :=
  fun s => match m s with
           | (inr a, s') => k a s'
           | (inl e, s') => (inl e, s')
           end.

Definition vtry {A} (m : MV A) (handler : JsError -> MV A) : MV A :=
  fun s => match m s with
           | (inr a, s') => (inr a, s')
           | (inl e, s') => handler e s'
           end.

(** A computation of the authentication layer, run on the [world]. *)
Definition lift {A} (m : M A) : MV A :=
  fun s => match m (world s) with
           | (r, w') => (r, mkSite w' (collection s) (next_video s) (queries s))
           end.

Definition video_library {A} (out : Outside) (c : VideoCall) (k : MV A) : MV A :=
  fun s =>
    let s' := mkSite (world s) (collection s) (next_video s) (queries s ++ [c]) in
    match video_fault out c with
    | Some e => (inl e, s')
    | None => k s'
    end.

Definition video_run (m : MV VideoResponse) (s : Site) : option VideoResponse * Site :=
  match m s with
  | (inr r, s') => (Some r, s')
  | (inl _, s') => (None, s')
  end.

Declare Scope video_scope.
Delimit Scope video_scope with video.
Notation "x <- m ;; k" := (vbind m (fun x => k))
  (at level 100, m at next level, right associativity) : video_scope.
Notation "m ;; k" := (vbind m (fun _ => k))
  (at level 100, right associativity) : video_scope.
Notation "'try' m 'catch' h" := (vtry m h)
  (at level 100, m at level 99) : video_scope.

(** [.sort({ uploadedAt: -1 })]: most recent first. *)
Fixpoint insert_desc (v : Video.doc) (l : list Video.doc) : list Video.doc :=
  match l with
  | [] => [v]
  | x :: rest =>
      if (Video.uploadedAt x <? Video.uploadedAt v)%Z then v :: l
      else x :: insert_desc v rest
  end.

Definition sort_desc (l : list Video.doc) : list Video.doc :=
  fold_right insert_desc [] l.

Definition owned_by (i : ObjectId) (v : Video.doc) : bool :=
  match Video.userId v with
  | Some j => Nat.eqb j i
  | None => false
  end.

Section Videos.

Open Scope video_scope.

(** Two functions of mongoose are parameters: the cast of a string to
    an ObjectId (undefined when the string is not one) and
    [mongoose.Types.ObjectId.isValid]. *)
Variable castObjectId : string -> option ObjectId.
Variable isValid : string -> bool.

Definition CastError : JsError := mkError "CastError" "Cast to ObjectId failed".

(** [User.findById(userId)] *)
Definition User_findById (out : Outside) (id : string) : MV (option User) :=
  video_library out CFindById (fun s =>
    match castObjectId id with
    | None => (inl CastError, s)
    | Some i => (inr (find (fun u => Nat.eqb (_id u) i) (docs (store (world s)))), s)
    end).

Definition insert_video (out : Outside) (owner : option ObjectId) (result : UploadResult)
    (cap song loc : option string) : MV Video.doc :=
  fun s =>
    let v := Video.mk (next_video s) owner (secure_url result) (public_id result)
                      cap song loc (date_now out) in
    (inr v, mkSite (world s) (collection s ++ [v]) (S (next_video s)) (queries s)).

(** [Video.create] on the schema of the first revision. *)
Definition Video_create (out : Outside) (result : UploadResult)
    (cap song loc : option string) : MV Video.doc :=
  video_library out CVideoCreate (insert_video out None result cap song loc).

(** [Video.create] on the schema of the second revision: [userId] is
    required, and cast to an ObjectId. *)
Definition Video_create_owned (out : Outside) (owner : string) (result : UploadResult)
    (cap song loc : option string) : MV Video.doc :=
  video_library out CVideoCreate
    match castObjectId owner with
    | None => (fun s => (inl (mkError "ValidationError" "Video validation failed"), s))
    | Some i => insert_video out (Some i) result cap song loc
    end.

(** [Video.find(filter).sort({ uploadedAt: -1 })] *)
Definition Video_find (out : Outside) (owner : option string) : MV (list Video.doc) :=
  video_library out CVideoFind (fun s =>
    match owner with
    | None => (inr (sort_desc (collection s)), s)
    | Some id =>
        match castObjectId id with
        | None => (inl CastError, s)
        | Some i => (inr (sort_desc (filter (owned_by i) (collection s))), s)
        end
    end).

Definition start_stream (out : Outside) (buffer : string) : MV unit :=
  lift (library (oracle out) CUploadStream (ret tt)).

(** [POST /api/videos/upload], first revision (part_000, lines 93-130).
    The callback of the stream runs after the [try] block has ended:
    what it throws is not caught. *)
Definition upload_first (out : Outside) (req : UploadRequest) : MV VideoResponse :=
  lift (console_log "Upload route hit") ;;
  started <-
    (try
       (match file req with
        | None =>
            lift (console_error "No video file uploaded" None) ;;
            vret (inl (reply 400 "No file uploaded"))
        | Some buffer =>
            start_stream out buffer ;;
            vret (inr tt)
        end)
     catch (fun err =>
       lift (console_error "Upload error:" (Some err)) ;;
       vret (inl (failure 500 "Upload error" err)))) ;;
  match started with
  | inl response => vret response
  | inr _ =>
      match cloudinary (oracle out) with
      | inl err =>
          lift (console_error "Cloudinary upload error:" (Some err)) ;;
          vret (failure 500 "Upload failed" err)
      | inr result =>
          lift (console_log ("Cloudinary upload successful: " ++ secure_url result)) ;;
          video <- Video_create out result (caption req) (songId req) (location req) ;;
          vret (mkVideoResponse 200 (VUploaded "Upload successful" video))
      end
  end.

(** The body of an upload in the second revision carries [userId]. *)
Record OwnedUpload : Type := mkOwnedUpload {
  upload_fields : UploadRequest;
  upload_userId : option string
}.

(** [POST /api/videos/upload], second revision (part_000, lines 241-279). *)
Definition upload_second (out : Outside) (req : OwnedUpload) : MV VideoResponse :=
  let fields := upload_fields req in
  started <-
    (try
       (match file fields with
        | None => vret (inl (reply 400 "Missing video file or user ID"))
        | Some buffer =>
            if falsy (upload_userId req)
            then vret (inl (reply 400 "Missing video file or user ID"))
            else
              user <- User_findById out (str (upload_userId req)) ;;
              match user with
              | None => vret (inl (reply 404 "User not found"))
              | Some _ =>
                  start_stream out buffer ;;
                  vret (inr tt)
              end
        end)
     catch (fun err =>
       lift (console_error "Upload error:" (Some err)) ;;
       vret (inl (failure 500 "Upload error" err)))) ;;
  match started with
  | inl response => vret response
  | inr _ =>
      match cloudinary (oracle out) with
      | inl err =>
          lift (console_error "Cloudinary upload error:" (Some err)) ;;
          vret (failure 500 "Upload failed" err)
      | inr result =>
          video <- Video_create_owned out (str (upload_userId req)) result
                     (caption fields) (songId fields) (location fields) ;;
          vret (mkVideoResponse 200 (VUploaded "Upload successful" video))
      end
  end.

(** [GET /api/videos] (part_000, lines 133-141 and 282-290). *)
Definition list_videos (out : Outside) : MV VideoResponse :=
  try
    (videos <- Video_find out None ;;
     vret (mkVideoResponse 200 (VList videos)))
  catch (fun err =>
    lift (console_error "Error fetching videos:" (Some err)) ;;
    vret (reply 500 "Failed to fetch videos")).

(** [GET /api/users/:userId/videos] (part_000, lines 293-306). *)
Definition user_videos (out : Outside) (userId : string) : MV VideoResponse :=
  if negb (isValid userId) then vret (reply 400 "Invalid user ID format")
  else
    try
      (videos <- Video_find out (Some userId) ;;
       vret (mkVideoResponse 200 (VList videos)))
    catch (fun err =>
      lift (console_error "Error fetching user videos:" (Some err)) ;;
      vret (reply 500 "Failed to fetch user's videos")).

Close Scope video_scope.

End Videos.

(** ** Vocabulary of the specification *)

(** An empty field of a request body: absent, or the empty string. *)
Definition empty (x : option string) : Prop := x = None \/ x = Some "".

(** The records that match a handle or an email. *)
Definition matching (handle mail : string) (s : Store) : list User :=
  filter (matches (ByEmailOrUsername mail handle)) (docs s).

Definition zero_counters (d : User) : Prop :=
  videos d = 0%Z /\ followers d = 0%Z /\ following d = 0%Z.

Definition record_ok (d : User) : Prop :=
  password d <> "" /\ (0 <= videos d)%Z /\ (0 <= followers d)%Z /\ (0 <= following d)%Z.

(** The invariants of the User records. *)
Definition store_ok (s : Store) : Prop :=
  NoDup (map username (docs s)) /\
  NoDup (map email (docs s)) /\
  Forall record_ok (docs s).

Definition log_error (label : string) (e : JsError) (w : World) : World :=
  mkWorld (store w) (calls w) (console w ++ [LogError label (Some e)]).

(** An internal failure on a request: the [try] block of the route
    throws [e] or, for an upload, the media host calls back with the
    error [e]. *)
Definition throws {A} (m : M A) (w : World) (e : JsError) : Prop :=
  fst (m w) = inl e.

Definition internal_failure
    (eksblowfish : nat -> string -> string -> string)
    (mac : string -> JwtPayload -> string)
    (env : Env) (o : Oracle) (p : Endpoint) (w : World) (e : JsError)
  : Prop :=
  match p with
  | Auth rev (Register req) => throws (register_try eksblowfish mac rev env o req) w e
  | Auth rev (Login req) => throws (login_try eksblowfish mac rev env o req) w e
  | Upload req =>
      throws (upload_try o req) (snd (console_log "Upload route hit" w)) e \/
      (file req <> None /\ fault o CUploadStream = None /\ cloudinary o = inl e)
  end.

(** A successful Register (201) or Login (200). *)
Definition succeeded (r : Request) (resp : Response) : Prop :=
  match r with
  | Register _ => status resp = 201
  | Login _ => status resp = 200
  end.

(** A body that carries a message and nothing else. *)
Definition generic (b : json) : Prop :=
  exists msg, b = JObj [("message", JStr msg)].

(** The signing key of a token. *)
Definition signed_with (mac : string -> JwtPayload -> string) (key : string) (t : Jwt)
  : Prop :=
  signature t = mac key (payload t).

(** The 24 hours of [expiresIn], in seconds. *)
Definition day : Z := 86400.

(** The record a successful registration inserts, the token a route
    issues for a user, and the response that carries it. *)
Definition registered (eksblowfish : nat -> string -> string -> string)
    (o : Oracle) (handle mail plaintext : string) (w : World) : User :=
  mkUser (next_oid (store w)) handle mail
         (hashString eksblowfish 10 (random_salt o) plaintext) 0 0 0.

Definition token_for (mac : string -> JwtPayload -> string)
    (env : Env) (o : Oracle) (u : User) : Jwt :=
  sign mac (_id u) (or_else (JWT_SECRET env) "secret") day (now o).

Definition granted (mac : string -> JwtPayload -> string)
    (code : nat) (rev : Revision) (env : Env) (o : Oracle) (u : User) : Response :=
  mkResponse code
    (JObj [("token", JToken (token_for mac env o u)); ("user", user_json rev u)]).

(** [a] is an initial segment of [b]. *)
Fixpoint is_prefix (a b : list Call) : bool :=
  match a, b with
  | [], _ => true
  | x :: a', y :: b' => Call_eqb x y && is_prefix a' b'
  | _ :: _, [] => false
  end.

Definition is_login (r : Request) : bool :=
  match r with
  | Login _ => true
  | Register _ => false
  end.

(** The library calls of a route, in the order of its source. *)
Definition script (r : Request) : list Call :=
  match r with
  | Register _ => [CFindOne; CHash; CCreate; CSign]
  | Login _ => [CFindOne; CCompare; CSign]
  end.

(** A listing with the most recent video first: every video is at
    least as recent as all that follow it. *)
Definition newest_first (l : list Video.doc) : Prop :=
  StronglySorted (fun a b => (Video.uploadedAt b <= Video.uploadedAt a)%Z) l.

Definition start_site (s : Store) (vs : list Video.doc) : Site :=
  mkSite (boot s) vs (length vs) [].

(** ** Sample data *)

Module Sample.

Definition digest (rounds : nat) (salt plaintext : string) : string :=
  "#" ++ plaintext.

Definition mac (key : string) (p : JwtPayload) : string :=
  key ++ ":" ++ two_digits (userId p).

Definition env : Env := mkEnv None.

Definition cloud_error : JsError := mkError "Error" "Invalid cloud_name demo".

Definition fine : Oracle :=
  mkOracle 1000 "abcdefghijklmnopqrstuv" (fun _ => None)
           (inr (mkUploadResult "https://media/v.mp4" "v1")).

Definition later : Oracle :=
  mkOracle 2000 "ABCDEFGHIJKLMNOPQRSTUV" (fun _ => None)
           (inl cloud_error).

Definition db_down : Oracle :=
  mkOracle 1000 "abcdefghijklmnopqrstuv"
           (fun c => if Call_eqb c CFindOne
                     then Some (mkError "MongoNetworkError" "connect ECONNREFUSED")
                     else None)
           (inl cloud_error).

Definition alice : RegisterBody :=
  mkRegisterBody (Some "alice") (Some "a@x.com") (Some "pw123").

Definition alice_doc : User :=
  mkUser 0 "alice" "a@x.com" "$2a$10$abcdefghijklmnopqrstuv#pw123" 0 0 0.

Definition bob_doc : User :=
  mkUser 1 "bob" "b@x.com" "$2a$10$ABCDEFGHIJKLMNOPQRSTUV#hunter2" 0 0 0.

Definition one_user : Store := mkStore [alice_doc] 1.

Definition two_users : Store := mkStore [alice_doc; bob_doc] 2.

Definition clip : UploadRequest :=
  mkUploadRequest (Some "bytes") (Some "hello") None None.

Definition alice_token : Jwt := token_for mac env fine alice_doc.

Definition welcome : Response := granted mac 201 index_js env fine alice_doc.

Definition after_alice : World :=
  mkWorld one_user [CFindOne; CHash; CCreate; CSign] [].

(** An ObjectId in text: here, two decimal digits. *)
Definition cast (id : string) : option ObjectId :=
  if (String.length id =? 2)%nat && String.eqb (two_digits (parse_two_digits id)) id
  then Some (parse_two_digits id) else None.

Definition valid (id : string) : bool := (String.length id =? 2)%nat.

Definition calm : Outside := mkOutside fine 5000 (fun _ => None).

Definition no_mongo : Outside :=
  mkOutside fine 5000 (fun _ => Some (mkError "MongoNetworkError" "connect ECONNREFUSED")).

Definition old_clip : Video.doc :=
  Video.mk 0 (Some 0) "https://media/a.mp4" "a" (Some "first") None None 1000.

Definition new_clip : Video.doc :=
  Video.mk 1 (Some 1) "https://media/b.mp4" "b" None None None 3000.

Definition mid_clip : Video.doc :=
  Video.mk 2 (Some 0) "https://media/c.mp4" "c" None None None 2000.

Definition library_site : Site :=
  mkSite (boot two_users) [old_clip; new_clip; mid_clip] 3 [].

Definition owned_clip : OwnedUpload := mkOwnedUpload clip (Some "00").

Definition keyed : Env := mkEnv (Some "k3y").

Definition sign_down : Oracle :=
  mkOracle 1000 "abcdefghijklmnopqrstuv"
           (fun c => if Call_eqb c CSign
                     then Some (mkError "Error" "secretOrPrivateKey must have a value")
                     else None)
           (inl cloud_error).

Definition stranger_clip : OwnedUpload := mkOwnedUpload clip (Some "07").

Definition garbled_clip : OwnedUpload := mkOwnedUpload clip (Some "user-1").

Definition uploaded : Video.doc :=
  Video.mk 3 (Some 0) "https://media/v.mp4" "v1" (Some "hello") None None 5000.

Definition create_down : Outside :=
  mkOutside fine 5000
            (fun c => match c with
                      | CVideoCreate => Some (mkError "MongoNetworkError" "connection closed")
                      | _ => None
                      end).

End Sample.

(** ** Strings *)

Lemma append_cancel_l (a x y : string) : a ++ x = a ++ y -> x = y.
Proof.
  induction a as [|c a IH]; simpl; intros H; [exact H|].
  injection H as H. auto.
Qed.

Lemma append_same_length (s1 s2 t1 t2 : string) :
  String.length s1 = String.length s2 -> s1 ++ t1 = s2 ++ t2 -> s1 = s2.
Proof.
  revert s2. induction s1 as [|c s1 IH]; intros [|c2 s2] L H;
    simpl in *; try discriminate; [reflexivity|].
  injection H as Hc H. injection L as L.
  subst c2. f_equal. eauto.
Qed.

Lemma substring_prefix (s t : string) :
  substring 0 (String.length s) (s ++ t) = s.
Proof.
  induction s as [|c s IH]; simpl.
  - destruct t; reflexivity.
  - now rewrite IH.
Qed.

Lemma digit_value_digit (n : nat) : n < 10 -> digit_value (digit n) = n.
Proof.
  intros H. unfold digit_value, digit.
  rewrite nat_ascii_embedding by lia. lia.
Qed.

Lemma parse_two_digits_inv (n : nat) : n < 100 -> parse_two_digits (two_digits n) = n.
Proof.
  intros H. unfold two_digits, parse_two_digits.
  assert (n / 10 < 10) by (apply Nat.Div0.div_lt_upper_bound; lia).
  assert (n mod 10 < 10) by (apply Nat.mod_upper_bound; lia).
  rewrite !digit_value_digit by assumption.
  symmetry. apply Nat.div_mod_eq.
Qed.

(** ** The password hasher *)

Section Hasher.

Variable eksblowfish : nat -> string -> string -> string.

Lemma hashString_rounds (rounds : nat) (salt p : string) :
  substring 4 2 (hashString eksblowfish rounds salt p) = two_digits rounds.
Proof. reflexivity. Qed.

Lemma hashString_salt (rounds : nat) (salt p : string) :
  String.length salt = 22 ->
  substring 7 22 (hashString eksblowfish rounds salt p) = salt.
Proof.
  intros L. unfold hashString, two_digits. simpl. 
  change (substring 0 22 (salt ++ eksblowfish rounds salt p) = salt).
  rewrite <- L. apply substring_prefix.
Qed.

Lemma verify_hashString (rounds : nat) (salt p : string) :
  rounds < 100 -> String.length salt = 22 ->
  verify eksblowfish p (hashString eksblowfish rounds salt p) = true.
Proof.
  intros R L. unfold verify.
  rewrite hashString_rounds, hashString_salt, parse_two_digits_inv by assumption.
  apply String.eqb_refl.
Qed.

Lemma hashString_salt_inj (rounds : nat) (s1 s2 p1 p2 : string) :
  String.length s1 = String.length s2 ->
  hashString eksblowfish rounds s1 p1 = hashString eksblowfish rounds s2 p2 ->
  s1 = s2.
Proof.
  intros L H. unfold hashString in H.
  do 3 apply append_cancel_l in H.
  eapply append_same_length; eassumption.
Qed.

Lemma hashString_not_empty (rounds : nat) (salt p : string) :
  hashString eksblowfish rounds salt p <> "".
Proof. discriminate. Qed.

End Hasher.

(** ** The routes, path by path *)

Section Routes.

Variable eksblowfish : nat -> string -> string -> string.
Variable HS256 : string -> JwtPayload -> string.

Ltac unfold_route :=
  unfold run, register, login, upload, register_try, login_try, upload_try,
    try_catch, bind, ret, throw,
    User_findOne, User_create, bcrypt_hash, bcrypt_compare, jwt_sign, upload_stream,
    library, console_error, console_log, message in *.

Lemma falsy_empty (x : option string) : falsy x = true <-> empty x.
Proof.
  unfold empty. destruct x as [s|]; simpl.
  - rewrite String.eqb_eq. split; [intros ->; now right | intros [H|H]; congruence].
  - split; auto.
Qed.

Lemma falsy_false (x : option string) :
  falsy x = false -> exists s, x = Some s /\ s <> "".
Proof.
  destruct x as [s|]; simpl; [|discriminate].
  intros H. exists s. split; [reflexivity|]. now apply String.eqb_neq.
Qed.

Lemma timespan_24h : timespan "24h" = Some day.
Proof. reflexivity. Qed.

Lemma register_validation
    (rev : Revision) (env : Env) (o : Oracle) (req : RegisterBody) (w : World) :
  falsy (reg_username req) || falsy (reg_email req) || falsy (reg_password req) = true ->
  run (register eksblowfish HS256 rev env o req) w
  = (Some (message 400 "All fields required"), w).
Proof. intros E. unfold_route. rewrite E. reflexivity. Qed.

(** C3. A Register call with an empty handle, email or plaintext is
    answered 400 "All fields required" and leaves the world as it was:
    no library call (store lookup, hashing, insertion, token issuance)
    is made, nothing is stored and nothing is logged. *)
Theorem register_empty_field
    (rev : Revision) (env : Env) (o : Oracle) (req : RegisterBody) (w : World) :
  empty (reg_username req) \/ empty (reg_email req) \/ empty (reg_password req) ->
  run (register eksblowfish HS256 rev env o req) w
  = (Some (message 400 "All fields required"), w).
Proof.
  intros H. apply register_validation.
  rewrite !orb_true_iff, !falsy_empty. tauto.
Qed.

(** C5. Two calls of the hasher on one plaintext, drawing distinct
    salts, return two different hash strings, and the plaintext
    verifies against both. *)
Theorem hash_twice
    (plaintext : string) (rounds : nat) (o1 o2 : Oracle) (w1 w2 : World) :
  rounds < 100 ->
  fault o1 CHash = None -> fault o2 CHash = None ->
  String.length (random_salt o1) = 22 -> String.length (random_salt o2) = 22 ->
  random_salt o1 <> random_salt o2 ->
  exists h1 h2,
    fst (bcrypt_hash eksblowfish o1 plaintext rounds w1) = inr h1 /\
    fst (bcrypt_hash eksblowfish o2 plaintext rounds w2) = inr h2 /\
    h1 <> h2 /\
    verify eksblowfish plaintext h1 = true /\
    verify eksblowfish plaintext h2 = true.
Proof.
  intros R F1 F2 L1 L2 D.
  exists (hashString eksblowfish rounds (random_salt o1) plaintext),
         (hashString eksblowfish rounds (random_salt o2) plaintext).
  unfold bcrypt_hash, library, ret. rewrite F1, F2. simpl.
  repeat split; auto using verify_hashString.
  intros E. apply D. eapply hashString_salt_inj; [|exact E]. congruence.
Qed.

Lemma find_none_existsb {A} (f g : A -> bool) (l : list A) :
  (forall x, g x = f x) -> find f l = None -> existsb g l = false.
Proof.
  intros E. induction l as [|x l IH]; simpl; [reflexivity|].
  rewrite E. destruct (f x); [discriminate|]. exact IH.
Qed.

Lemma find_app_last {A} (f : A -> bool) (l : list A) (x : A) :
  find f l = None -> f x = true -> find f (l ++ [x]) = Some x.
Proof.
  intros N T. induction l as [|y l IH]; simpl in *.
  - now rewrite T.
  - destruct (f y); [discriminate|]. auto.
Qed.

Lemma find_username_none (e u : string) (s : Store) :
  findOne (ByEmailOrUsername e u) s = None -> findOne (ByUsername u) s = None.
Proof.
  unfold findOne. induction (docs s) as [|d l IH]; simpl; [reflexivity|].
  destruct (String.eqb (username d) u); [rewrite orb_true_r; discriminate|].
  rewrite orb_false_r. destruct (String.eqb (email d) e); [discriminate|]. exact IH.
Qed.

(** Register, the success path: valid fields, no matching record, no
    failure of a library call. *)
Lemma register_created
    (rev : Revision) (env : Env) (o : Oracle) (handle mail plaintext : string) (w : World) :
  healthy o ->
  handle <> "" -> mail <> "" -> plaintext <> "" ->
  findOne (ByEmailOrUsername mail handle) (store w) = None ->
  let u := registered eksblowfish o handle mail plaintext w in
  run (register eksblowfish HS256 rev env o
         (mkRegisterBody (Some handle) (Some mail) (Some plaintext))) w
  = (Some (granted HS256 201 rev env o u),
     mkWorld (mkStore (docs (store w) ++ [u]) (S (next_oid (store w))))
             (calls w ++ [CFindOne; CHash; CCreate; CSign]) (console w)).
Proof.
  intros F Hh Hm Hp N u.
  apply String.eqb_neq in Hh, Hm, Hp.
  unfold_route. simpl. rewrite Hh, Hm, Hp. simpl.
  rewrite !F, N. simpl.
  rewrite (find_none_existsb _ _ _ (fun d => orb_comm _ _) N).
  simpl. rewrite <- !app_assoc. reflexivity.
Qed.

(** Every Register call is answered, in one of two ways: the store is
    left as it was and a message is sent, or the record was inserted
    and the answer is the token (or the generic 500, should signing
    fail afterwards). *)
Lemma register_outcome
    (rev : Revision) (env : Env) (o : Oracle) (req : RegisterBody) (w : World) :
  exists resp w',
    run (register eksblowfish HS256 rev env o req) w = (Some resp, w') /\
    ((store w' = store w /\
      exists code msg, resp = message code msg /\ (code = 400 \/ code = 500))
     \/
     (exists handle mail plaintext,
        req = mkRegisterBody (Some handle) (Some mail) (Some plaintext) /\
        handle <> "" /\ mail <> "" /\ plaintext <> "" /\
        findOne (ByEmailOrUsername mail handle) (store w) = None /\
        let u := registered eksblowfish o handle mail plaintext w in
        store w' = mkStore (docs (store w) ++ [u]) (S (next_oid (store w))) /\
        (resp = granted HS256 201 rev env o u \/
         resp = message 500 "Registration failed"))).
Proof.
  destruct (falsy (reg_username req) || falsy (reg_email req)
            || falsy (reg_password req)) eqn:E.
  { rewrite register_validation by exact E.
    do 2 eexists; split; [reflexivity|]. left. eauto 6. }
  rewrite !orb_false_iff in E. destruct E as [[Eh Em] Ep].
  destruct req as [u e p]; simpl in *.
  apply falsy_false in Eh, Em, Ep.
  destruct Eh as (handle & -> & Hh), Em as (mail & -> & Hm), Ep as (plaintext & -> & Hp).
  unfold_route. simpl.
  destruct (String.eqb_spec handle ""); [contradiction|].
  destruct (String.eqb_spec mail ""); [contradiction|].
  destruct (String.eqb_spec plaintext ""); [contradiction|]. simpl.
  destruct (fault o CFindOne); simpl; [eauto 10|].
  destruct (findOne (ByEmailOrUsername mail handle) (store w)) eqn:N; simpl; [eauto 10|].
  destruct (fault o CHash); simpl; [eauto 10|].
  destruct (fault o CCreate); simpl; [eauto 10|].
  destruct (existsb _ _); simpl; [eauto 10|].
  destruct (fault o CSign); simpl.
  - do 2 eexists; split; [reflexivity|]. right.
    exists handle, mail, plaintext. simpl. auto 10.
  - do 2 eexists; split; [reflexivity|]. right.
    exists handle, mail, plaintext. simpl. auto 10.
Qed.

(** Login, the success path. *)
Lemma login_granted
    (rev : Revision) (env : Env) (o : Oracle) (handle plaintext : string)
    (u : User) (w : World) :
  healthy o ->
  findOne (ByUsername handle) (store w) = Some u ->
  verify eksblowfish plaintext (password u) = true ->
  run (login eksblowfish HS256 rev env o (mkLoginBody handle plaintext)) w
  = (Some (granted HS256 200 rev env o u),
     mkWorld (store w) (calls w ++ [CFindOne; CCompare; CSign]) (console w)).
Proof.
  intros F N V. unfold_route. simpl.
  rewrite !F, N. simpl. rewrite ?F, V. simpl.
  rewrite <- !app_assoc. reflexivity.
Qed.

(** Every Login call is answered and leaves the store as it was; a
    token is sent only for a record found by its handle whose hash
    verifies the plaintext. *)
Lemma login_outcome
    (rev : Revision) (env : Env) (o : Oracle) (req : LoginBody) (w : World) :
  exists resp w',
    run (login eksblowfish HS256 rev env o req) w = (Some resp, w') /\
    store w' = store w /\
    ((exists code msg, resp = message code msg /\ (code = 401 \/ code = 500))
     \/
     (exists u,
        findOne (ByUsername (login_username req)) (store w) = Some u /\
        verify eksblowfish (login_password req) (password u) = true /\
        resp = granted HS256 200 rev env o u)).
Proof.
  unfold_route. simpl.
  destruct (fault o CFindOne); simpl; [eauto 10|].
  destruct (findOne _ _) as [u|] eqn:N; simpl; [|eauto 10].
  destruct (fault o CCompare); simpl; [eauto 10|].
  destruct (verify _ _ _) eqn:V; simpl; [|eauto 10].
  destruct (fault o CSign); simpl; [eauto 10|].
  do 2 eexists; split; [reflexivity|]. split; [reflexivity|].
  right. exists u. auto.
Qed.

Lemma findOne_username_absent (handle : string) (s : Store) :
  (forall d, In d (docs s) -> username d <> handle) ->
  findOne (ByUsername handle) s = None.
Proof.
  unfold findOne. intros H.
  destruct (find _ _) as [d|] eqn:E; [|reflexivity].
  apply find_some in E. destruct E as [I E]. simpl in E.
  apply String.eqb_eq in E. now apply H in I.
Qed.

Lemma findOne_absent (handle mail : string) (s : Store) :
  (forall d, In d (docs s) -> username d <> handle /\ email d <> mail) ->
  findOne (ByEmailOrUsername mail handle) s = None.
Proof.
  unfold findOne. intros H.
  destruct (find _ _) as [d|] eqn:E; [|reflexivity].
  apply find_some in E. destruct E as [I E]. simpl in E.
  apply H in I. rewrite orb_true_iff, !String.eqb_eq in E. tauto.
Qed.

(** C4. Login fails with 401 "User not found" when no record has the
    supplied handle, and with 401 "Invalid password" when the record
    found does not verify the supplied plaintext; in both cases the
    store is unchanged and the only library calls made are the lookup
    (and the comparison): no token is signed, nothing is written. *)
Theorem login_refused
    (rev : Revision) (env : Env) (o : Oracle) (handle plaintext : string) (w : World) :
  healthy o ->
  ((forall d, In d (docs (store w)) -> username d <> handle) ->
   run (login eksblowfish HS256 rev env o (mkLoginBody handle plaintext)) w
   = (Some (message 401 "User not found"),
      mkWorld (store w) (calls w ++ [CFindOne]) (console w)))
  /\
  (forall u,
     findOne (ByUsername handle) (store w) = Some u ->
     verify eksblowfish plaintext (password u) = false ->
     run (login eksblowfish HS256 rev env o (mkLoginBody handle plaintext)) w
     = (Some (message 401 "Invalid password"),
        mkWorld (store w) (calls w ++ [CFindOne; CCompare]) (console w))).
Proof.
  intros F. split.
  - intros A. apply findOne_username_absent in A.
    unfold_route. simpl. rewrite F, A. reflexivity.
  - intros u N V. unfold_route. simpl.
    rewrite !F, N. simpl. rewrite ?F, V. simpl.
    rewrite <- !app_assoc. reflexivity.
Qed.

(** C1. Register with three non-empty fields whose handle and email
    match no record answers 201 with a token, and a Login that follows
    with the same handle and plaintext answers 200 with a token whose
    [userId] is the [_id] of the record Register inserted. *)
Theorem register_then_login
    (rev : Revision) (env : Env) (o1 o2 : Oracle)
    (handle mail plaintext : string) (w : World) :
  healthy o1 -> healthy o2 ->
  String.length (random_salt o1) = 22 ->
  handle <> "" -> mail <> "" -> plaintext <> "" ->
  (forall d, In d (docs (store w)) -> username d <> handle /\ email d <> mail) ->
  exists u t1 t2 w1 w2,
    run (register eksblowfish HS256 rev env o1
           (mkRegisterBody (Some handle) (Some mail) (Some plaintext))) w
    = (Some (mkResponse 201 (JObj [("token", JToken t1); ("user", user_json rev u)])),
       w1) /\
    docs (store w1) = (docs (store w) ++ [u])%list /\
    run (login eksblowfish HS256 rev env o2 (mkLoginBody handle plaintext)) w1
    = (Some (mkResponse 200 (JObj [("token", JToken t2); ("user", user_json rev u)])),
       w2) /\
    userId (payload t2) = _id u.
Proof.
  intros F1 F2 L Hh Hm Hp A.
  apply findOne_absent in A.
  pose (u := registered eksblowfish o1 handle mail plaintext w).
  exists u, (token_for HS256 env o1 u), (token_for HS256 env o2 u).
  do 2 eexists.
  split; [apply register_created; assumption|].
  split; [reflexivity|].
  split; [|reflexivity].
  apply login_granted; [assumption| |].
  - unfold findOne. simpl. apply find_app_last.
    + exact (find_username_none _ _ _ A).
    + simpl. apply String.eqb_refl.
  - simpl. apply verify_hashString; [lia | assumption].
Qed.

(** A response that carries a token, or the status of a successful
    Register or Login, is the grant of a token to a stored record. *)
Lemma route_grants
    (rev : Revision) (env : Env) (o : Oracle) (r : Request) (w w' : World)
    (resp : Response) :
  run (route eksblowfish HS256 rev env o r) w = (Some resp, w') ->
  succeeded r resp \/ (exists t, prop "token" (body resp) = Some t) ->
  exists u code,
    In u (docs (store w')) /\ resp = granted HS256 code rev env o u.
Proof.
  intros R S. destruct r as [req|req]; simpl in R, S.
  - destruct (register_outcome rev env o req w) as (resp0 & w0 & R0 & C).
    rewrite R0 in R. injection R as -> ->.
    destruct C as [(_ & code & msg & -> & C) | (h & m & p & _ & _ & _ & _ & _ & C)].
    + exfalso. destruct S as [S|[t S]]; [simpl in S; lia | discriminate].
    + simpl in C. destruct C as (St & [-> | ->]).
      * eexists _, 201. split; [|reflexivity]. rewrite St. simpl.
        apply in_or_app. right. now left.
      * exfalso. destruct S as [S|[t S]]; discriminate.
  - destruct (login_outcome rev env o req w) as (resp0 & w0 & R0 & St & C).
    rewrite R0 in R. injection R as -> ->.
    destruct C as [(code & msg & -> & C) | (u & N & _ & ->)].
    + exfalso. destruct S as [S|[t S]]; [simpl in S; lia | discriminate].
    + exists u, 200. split; [|reflexivity]. rewrite St.
      unfold findOne in N. now apply find_some in N.
Qed.

Lemma user_json_password (rev : Revision) (u : User) :
  prop "password" (user_json rev u) = Some (JStr (password u)).
Proof. destruct rev; reflexivity. Qed.

(** C6, as the code has it. The [user] of every successful Register
    and Login response is the stored record with all its paths, the
    [password] path, which holds the stored hash, included. *)
Theorem response_shows_hash
    (rev : Revision) (env : Env) (o : Oracle) (r : Request) (w w' : World)
    (resp : Response) :
  run (route eksblowfish HS256 rev env o r) w = (Some resp, w') ->
  succeeded r resp ->
  exists u,
    In u (docs (store w')) /\
    prop "user" (body resp) = Some (user_json rev u) /\
    prop "password" (user_json rev u) = Some (JStr (password u)).
Proof.
  intros R S.
  destruct (route_grants rev env o r w w' resp R (or_introl S)) as (u & code & I & ->).
  exists u. split; [exact I|]. split; [reflexivity|]. apply user_json_password.
Qed.

(** C7. A token issued by Register or Login expires 24 hours after it
    was issued: [validate] returns its subject, the [_id] of the user
    of the response, at any time before that, and Invalid from then
    on. *)
Theorem token_ttl
    (rev : Revision) (env : Env) (o : Oracle) (r : Request) (w w' : World)
    (resp : Response) (t : Jwt) :
  run (route eksblowfish HS256 rev env o r) w = (Some resp, w') ->
  prop "token" (body resp) = Some (JToken t) ->
  let secret := or_else (JWT_SECRET env) "secret" in
  iat (payload t) = now o /\
  exp (payload t) = (now o + day)%Z /\
  (exists u, prop "user" (body resp) = Some (user_json rev u) /\
             userId (payload t) = _id u) /\
  (forall clock, (clock < now o + day)%Z ->
     validate HS256 secret clock t = Some (userId (payload t))) /\
  (forall clock, (now o + day <= clock)%Z ->
     validate HS256 secret clock t = None).
Proof.
  intros R T secret.
  destruct (route_grants rev env o r w w' resp R (or_intror (ex_intro _ _ T)))
    as (u & code & I & ->).
  simpl in T. injection T as <-.
  split; [reflexivity|]. split; [reflexivity|].
  split; [exists u; split; reflexivity|].
  unfold validate, token_for, sign; simpl. rewrite String.eqb_refl.
  split; intros clock H.
  - destruct (Z.leb_spec (now o + day) clock); [lia | reflexivity].
  - destruct (Z.leb_spec (now o + day) clock); [reflexivity | lia].
Qed.

(** C10. With [JWT_SECRET] unset, every token Register or Login issues
    is signed with the literal key "secret". *)
Theorem default_secret
    (rev : Revision) (env : Env) (o : Oracle) (r : Request) (w w' : World)
    (resp : Response) (t : Jwt) :
  JWT_SECRET env = None ->
  run (route eksblowfish HS256 rev env o r) w = (Some resp, w') ->
  prop "token" (body resp) = Some (JToken t) ->
  signed_with HS256 "secret" t.
Proof.
  intros E R T.
  destruct (route_grants rev env o r w w' resp R (or_intror (ex_intro _ _ T)))
    as (u & code & I & ->).
  simpl in T. injection T as <-.
  unfold signed_with, token_for, sign. rewrite E. reflexivity.
Qed.

(** ** Conflicts *)

Lemma findOne_present (handle mail : string) (s : Store) :
  (exists d, In d (docs s) /\ (username d = handle \/ email d = mail)) ->
  exists d, findOne (ByEmailOrUsername mail handle) s = Some d.
Proof.
  intros (d & I & E). unfold findOne.
  destruct (find _ _) as [d'|] eqn:F; [eauto|].
  exfalso. apply (find_none _ _ F) in I. simpl in I.
  rewrite orb_false_iff, !String.eqb_neq in I. tauto.
Qed.

Lemma unique_key_once {A} (key : A -> string) (k : string) (l : list A) :
  NoDup (map key l) ->
  length (filter (fun d => String.eqb (key d) k) l) <= 1.
Proof.
  induction l as [|x l IH]; simpl; intros N; [lia|].
  inversion N as [|? ? NI N']; subst.
  destruct (String.eqb_spec (key x) k) as [E|]; [|auto].
  simpl. assert (Z : filter (fun d => String.eqb (key d) k) l = []).
  { destruct (filter _ l) as [|y ?] eqn:F; [reflexivity|]. exfalso.
    assert (I : In y (filter (fun d => String.eqb (key d) k) l))
      by (rewrite F; now left).
    apply filter_In in I. destruct I as [I Ey]. apply String.eqb_eq in Ey.
    apply NI. rewrite E, <- Ey. now apply in_map. }
  rewrite Z. simpl. lia.
Qed.

Lemma filter_or_length {A} (f g : A -> bool) (l : list A) :
  length (filter (fun x => f x || g x) l)
  <= length (filter f l) + length (filter g l).
Proof.
  induction l as [|x l IH]; simpl; [lia|].
  destruct (f x), (g x); simpl; lia.
Qed.

Lemma matching_bounds (handle mail : string) (s : Store) :
  store_ok s ->
  (exists d, In d (docs s) /\ (username d = handle \/ email d = mail)) ->
  1 <= length (matching handle mail s) <= 2.
Proof.
  intros (Nu & Ne & _) (d & I & E). unfold matching. split.
  - assert (In d (filter (matches (ByEmailOrUsername mail handle)) (docs s))) as M.
    { apply filter_In. split; [exact I|]. simpl.
      rewrite orb_true_iff, !String.eqb_eq. tauto. }
    destruct (filter _ _); [contradiction | simpl; lia].
  - simpl. etransitivity; [apply filter_or_length|].
    pose proof (unique_key_once username handle (docs s) Nu).
    pose proof (unique_key_once email mail (docs s) Ne). lia.
Qed.

(** C2, as the code has it. A Register call with three non-empty
    fields whose handle equals the handle, or whose email equals the
    email, of an existing record is answered 400 "User already exists"
    after the lookup alone; the store is unchanged, so the records
    matching that handle or email are the ones there were: one, or two
    when the handle and the email belong to two different records. *)
Theorem register_conflict
    (rev : Revision) (env : Env) (o : Oracle)
    (handle mail plaintext : string) (w : World) :
  fault o CFindOne = None ->
  handle <> "" -> mail <> "" -> plaintext <> "" ->
  (exists d, In d (docs (store w)) /\ (username d = handle \/ email d = mail)) ->
  exists w',
    run (register eksblowfish HS256 rev env o
           (mkRegisterBody (Some handle) (Some mail) (Some plaintext))) w
    = (Some (message 400 "User already exists"), w') /\
    store w' = store w /\
    calls w' = (calls w ++ [CFindOne])%list /\
    matching handle mail (store w') = matching handle mail (store w) /\
    (store_ok (store w) -> 1 <= length (matching handle mail (store w')) <= 2).
Proof.
  intros F Hh Hm Hp P.
  destruct (findOne_present handle mail (store w) P) as (d & N).
  apply String.eqb_neq in Hh, Hm, Hp.
  eexists. split.
  - unfold_route. simpl. rewrite Hh, Hm, Hp. simpl. rewrite F, N. reflexivity.
  - simpl. do 3 (split; [reflexivity|]).
    intros K. now apply matching_bounds.
Qed.

(** ** The invariants of the store *)

Lemma store_ok_insert (s : Store) (o : Oracle) (handle mail plaintext : string)
    (w : World) :
  store w = s ->
  store_ok s ->
  findOne (ByEmailOrUsername mail handle) s = None ->
  store_ok (mkStore (docs s ++ [registered eksblowfish o handle mail plaintext w])
                    (S (next_oid s))).
Proof.
  intros _ (Nu & Ne & R) N. unfold findOne in N.
  assert (A : forall d, In d (docs s) -> username d <> handle /\ email d <> mail).
  { intros d I. apply (find_none _ _ N) in I. simpl in I.
    rewrite orb_false_iff, !String.eqb_neq in I. tauto. }
  unfold store_ok. simpl. rewrite !map_app. simpl.
  repeat split.
  - apply NoDup_app; [exact Nu | repeat constructor; intros [] |].
    intros k I [<-|[]]. apply in_map_iff in I. destruct I as (d & E & I).
    now apply A in I.
  - apply NoDup_app; [exact Ne | repeat constructor; intros [] |].
    intros k I [<-|[]]. apply in_map_iff in I. destruct I as (d & E & I).
    now apply A in I.
  - apply Forall_app. split; [exact R|]. constructor; [|constructor].
    unfold record_ok. simpl. repeat split; try lia. apply hashString_not_empty.
Qed.

(** One request: the store keeps its invariants, and what it gains is
    appended with all counters zero. *)
Lemma route_step
    (rev : Revision) (env : Env) (o : Oracle) (r : Request) (w : World) :
  store_ok (store w) ->
  exists a w' added,
    run (route eksblowfish HS256 rev env o r) w = (a, w') /\
    store_ok (store w') /\
    docs (store w') = (docs (store w) ++ added)%list /\
    Forall zero_counters added.
Proof.
  intros K. destruct r as [req|req]; simpl.
  - destruct (register_outcome rev env o req w) as (resp & w' & R & C).
    exists (Some resp), w'.
    destruct C as [(St & _) | (h & m & p & _ & _ & _ & _ & N & St & _)].
    + exists []. rewrite St, app_nil_r. auto.
    + exists [registered eksblowfish o h m p w]. rewrite St. simpl.
      split; [exact R|]. split; [now apply store_ok_insert|].
      split; [reflexivity|]. repeat constructor.
  - destruct (login_outcome rev env o req w) as (resp & w' & R & St & _).
    exists (Some resp), w', []. rewrite St, app_nil_r. auto.
Qed.

(** C8. Whatever the sequence of Register and Login calls and whatever
    happens to each, a store that satisfies the
    invariants still does afterwards: handles are unique, emails are
    unique, no password hash is empty and no counter is negative; the
    records the calls created come after the old ones, each with its
    three counters at zero. *)
Theorem invariants_preserved
    (rev : Revision) (env : Env) (rs : list (Oracle * Request)) (w : World) :
  store_ok (store w) ->
  let w' := snd (serve eksblowfish HS256 rev env rs w) in
  store_ok (store w') /\
  exists added,
    docs (store w') = (docs (store w) ++ added)%list /\
    Forall zero_counters added.
Proof.
  revert w. induction rs as [|[o r] rs IH]; intros w K; simpl.
  - split; [exact K|]. exists []. now rewrite app_nil_r.
  - destruct (route_step rev env o r w K) as (a & w1 & add1 & R & K1 & D1 & Z1).
    rewrite R. specialize (IH w1 K1). simpl in IH.
    destruct (serve eksblowfish HS256 rev env rs w1) as [answers w2]. simpl in *.
    destruct IH as (K2 & add2 & D2 & Z2).
    split; [exact K2|]. exists (add1 ++ add2)%list.
    rewrite D2, D1, app_assoc. split; [reflexivity|].
    apply Forall_app. auto.
Qed.

(** ** Internal failures *)

Lemma try_catch_throws (m : M Response) (label msg : string) (w : World) (e : JsError) :
  throws m w e ->
  run (try m catch (fun err =>
         console_error label (Some err) ;; ret (message 500 msg))) w
  = (Some (message 500 msg), log_error label e (snd (m w))).
Proof.
  unfold throws, run, try_catch, bind, console_error, ret, log_error.
  destruct (m w) as [[e'|a] w1]; simpl; [|discriminate].
  now intros [= ->].
Qed.

(** A library call that fails makes the [try] block of the route throw:
    here, the store lookup of Register and of Login. *)
Lemma lookup_failure_throws
    (rev : Revision) (env : Env) (o : Oracle) (w : World) (e : JsError) :
  fault o CFindOne = Some e ->
  (forall handle mail plaintext,
     handle <> "" -> mail <> "" -> plaintext <> "" ->
     throws (register_try eksblowfish HS256 rev env o
               (mkRegisterBody (Some handle) (Some mail) (Some plaintext))) w e) /\
  (forall req, throws (login_try eksblowfish HS256 rev env o req) w e).
Proof.
  intros F. split.
  - intros h m p Hh Hm Hp. apply String.eqb_neq in Hh, Hm, Hp.
    unfold throws. unfold_route. simpl. rewrite Hh, Hm, Hp. simpl.
    now rewrite F.
  - intros req. unfold throws. unfold_route. now rewrite F.
Qed.

(** C9, as the code has it. An internal failure on a request is caught
    by the route and logged on the server, and the client is answered
    500. For Register and Login the body is the fixed message alone;
    for Upload the body carries, next to the fixed message, the error
    itself in its [error] property. *)
Theorem internal_failure_answer
    (env : Env) (o : Oracle) (p : Endpoint) (w : World) (e : JsError) :
  internal_failure eksblowfish HS256 env o p w e ->
  exists resp w',
    run (dispatch eksblowfish HS256 env o p) w = (Some resp, w') /\
    status resp = 500 /\
    (exists label, In (LogError label (Some e)) (console w')) /\
    match p with
    | Auth _ (Register _) => body resp = JObj [("message", JStr "Registration failed")]
    | Auth _ (Login _) => body resp = JObj [("message", JStr "Login failed")]
    | Upload _ =>
        body resp = JObj [("message", JStr "Upload error"); ("error", JErr e)] \/
        body resp = JObj [("message", JStr "Upload failed"); ("error", JErr e)]
    end.
Proof.
  intros H. destruct p as [rev [req|req]|req]; simpl in H |- *.
  - unfold register. rewrite (try_catch_throws _ _ _ _ _ H).
    do 2 eexists. split; [reflexivity|]. simpl. repeat split.
    exists "Register error:". apply in_or_app. right. now left.
  - unfold login. rewrite (try_catch_throws _ _ _ _ _ H).
    do 2 eexists. split; [reflexivity|]. simpl. repeat split.
    exists "Login error:". apply in_or_app. right. now left.
  - destruct H as [H | (Hf & F & C)].
    + unfold throws in H. unfold_route. simpl in *.
      destruct (file req); simpl in *; [|discriminate].
      destruct (fault o CUploadStream); simpl in *.
      * injection H as ->. do 2 eexists. split; [reflexivity|]. simpl.
        repeat split; [|now left].
        exists "Upload error:". apply in_or_app. right. now left.
      * destruct (cloudinary o); discriminate.
    + unfold_route. simpl.
      destruct (file req); [|contradiction]. simpl. rewrite F, C. simpl.
      do 2 eexists. split; [reflexivity|]. simpl.
      repeat split; [|now right].
      exists "Cloudinary upload error:". apply in_or_app. right. now left.
Qed.

(** ** More on the authentication routes *)

(** The paths of Register and of Login, for proofs by cases on the
    goal: the guard, then each library call in turn. *)
Ltac register_paths rev env o req w :=
  let E := fresh "E" in
  destruct (falsy (reg_username req) || falsy (reg_email req)
            || falsy (reg_password req)) eqn:E;
  [ rewrite (register_validation rev env o req w E)
  | rewrite !orb_false_iff in E;
    let Eh := fresh "Eh" in let Em := fresh "Em" in let Ep := fresh "Ep" in
    destruct E as [[Eh Em] Ep];
    apply falsy_false in Eh, Em, Ep;
    let h := fresh "handle" in let m := fresh "mail" in let p := fresh "plaintext" in
    let Hh := fresh "Hh" in let Hm := fresh "Hm" in let Hp := fresh "Hp" in
    let N := fresh "N" in
    destruct req as [? ? ?]; simpl in Eh, Em, Ep;
    destruct Eh as (h & -> & Hh), Em as (m & -> & Hm), Ep as (p & -> & Hp);
    unfold_route; simpl;
    destruct (String.eqb_spec h ""); [contradiction|];
    destruct (String.eqb_spec m ""); [contradiction|];
    destruct (String.eqb_spec p ""); [contradiction|]; simpl;
    destruct (fault o CFindOne) eqn:?; simpl;
    [ | destruct (findOne (ByEmailOrUsername m h) (store w)) eqn:N; simpl;
        [ | destruct (fault o CHash) eqn:?; simpl;
            [ | destruct (fault o CCreate) eqn:?; simpl;
                [ | rewrite (find_none_existsb _ _ _ (fun d => orb_comm _ _) N); simpl;
                    destruct (fault o CSign) eqn:?; simpl ] ] ] ] ].

Ltac login_paths o req w :=
  let N := fresh "N" in let V := fresh "V" in
  unfold_route; simpl;
  destruct (fault o CFindOne) eqn:?; simpl;
  [ | destruct (findOne (ByUsername (login_username req)) (store w)) eqn:N; simpl;
      [ destruct (fault o CCompare) eqn:?; simpl;
        [ | match goal with
            | |- context [verify ?e ?p ?h] => destruct (verify e p h) eqn:V; simpl
            end;
            [ destruct (fault o CSign) eqn:?; simpl | ] ]
      | ] ].

(** X1. Every Register and Login call is answered, with one of three
    statuses, and the answer carries a token exactly when the call
    succeeded. *)
Theorem auth_answered
    (rev : Revision) (env : Env) (o : Oracle) (r : Request) (w : World) :
  exists resp w',
    run (route eksblowfish HS256 rev env o r) w = (Some resp, w') /\
    match r with
    | Register _ => status resp = 201 \/ status resp = 400 \/ status resp = 500
    | Login _ => status resp = 200 \/ status resp = 401 \/ status resp = 500
    end /\
    (succeeded r resp <-> exists t, prop "token" (body resp) = Some (JToken t)).
Proof.
  destruct r as [req|req]; simpl.
  - register_paths rev env o req w;
      (do 2 eexists; split; [reflexivity|]; simpl; split; [auto|]);
      try (split; [discriminate | intros [t T]; discriminate]).
    split; [eauto | reflexivity].
  - login_paths o req w;
      (do 2 eexists; split; [reflexivity|]; simpl; split; [auto|]);
      try (split; [discriminate | intros [t T]; discriminate]).
    split; [eauto | reflexivity].
Qed.


(** X3. The library calls of a request are an initial segment of the
    route's script: lookup, hash, insert, sign for Register; lookup,
    compare, sign for Login. The store changes only on a request that
    reached the insertion. *)
Theorem library_calls_in_order
    (rev : Revision) (env : Env) (o : Oracle) (r : Request) (w : World) :
  exists a w' made,
    run (route eksblowfish HS256 rev env o r) w = (a, w') /\
    calls w' = (calls w ++ made)%list /\
    is_prefix made (script r) = true /\
    (store w' = store w \/ In CCreate made).
Proof.
  destruct r as [req|req]; simpl.
  - register_paths rev env o req w;
      try (do 2 eexists; exists []; rewrite app_nil_r; simpl; auto; fail);
      rewrite <- ?app_assoc; simpl;
      (do 3 eexists; split; [reflexivity|]; simpl; split; [reflexivity|]; simpl; auto 6).
  - login_paths o req w;
      rewrite <- ?app_assoc; simpl;
      (do 3 eexists; split; [reflexivity|]; simpl; split; [reflexivity|]; simpl; auto).
Qed.

(** X4. When no library call fails, Register succeeds exactly when its
    three fields are non-empty and no record has the handle or the
    email. *)
Theorem register_succeeds_iff
    (rev : Revision) (env : Env) (o : Oracle) (req : RegisterBody) (w : World) :
  healthy o ->
  exists resp w',
    run (register eksblowfish HS256 rev env o req) w = (Some resp, w') /\
    (status resp = 201 <->
     ~ empty (reg_username req) /\ ~ empty (reg_email req) /\
     ~ empty (reg_password req) /\
     forall d, In d (docs (store w)) ->
       username d <> str (reg_username req) /\ email d <> str (reg_email req)).
Proof.
  intros F.
  assert (P : forall h m, findOne (ByEmailOrUsername m h) (store w) = None <->
                forall d, In d (docs (store w)) -> username d <> h /\ email d <> m).
  { intros h m. split; [|apply findOne_absent].
    intros N d I. apply (find_none _ _ N) in I. simpl in I.
    rewrite orb_false_iff, !String.eqb_neq in I. tauto. }
  register_paths rev env o req w; rewrite ?F in *; try discriminate;
    (do 2 eexists; split; [reflexivity|]; simpl).
  - rewrite !orb_true_iff, !falsy_empty in E.
    split; [discriminate | tauto].
  - split; [discriminate|]. intros (_ & _ & _ & A). apply P in A. congruence.
  - split; [intros _ | reflexivity]. unfold empty.
    do 3 (split; [intros [|]; congruence|]). now apply P.
Qed.

(** X5. A successful Register appends exactly one record: it has the
    handle and the email of the request, all counters at zero and the
    bcrypt hash of the plaintext, and its [_id] is the subject of the
    token. *)
Theorem register_stores_record
    (rev : Revision) (env : Env) (o : Oracle) (req : RegisterBody) (w w' : World)
    (resp : Response) :
  run (register eksblowfish HS256 rev env o req) w = (Some resp, w') ->
  status resp = 201 ->
  exists u t,
    body resp = JObj [("token", JToken t); ("user", user_json rev u)] /\
    docs (store w') = (docs (store w) ++ [u])%list /\
    reg_username req = Some (username u) /\
    reg_email req = Some (email u) /\
    password u = hashString eksblowfish 10 (random_salt o) (str (reg_password req)) /\
    zero_counters u /\
    userId (payload t) = _id u.
Proof.
  intros R S.
  destruct (register_outcome rev env o req w) as (resp0 & w0 & R0 & C).
  rewrite R0 in R. injection R as -> ->.
  destruct C as [(_ & code & msg & -> & C) | (h & m & p & -> & _ & _ & _ & _ & C)].
  - simpl in S. lia.
  - simpl in C. destruct C as (St & [-> | ->]); [|discriminate].
    do 2 eexists. split; [reflexivity|]. rewrite St. simpl.
    repeat split.
Qed.

(** X6. A Login answered 200 was given the handle of a stored record and a
    plaintext that verifies against its hash; the token is for that
    record, and the store is as it was. *)
Theorem login_sound
    (rev : Revision) (env : Env) (o : Oracle) (req : LoginBody) (w w' : World)
    (resp : Response) :
  run (login eksblowfish HS256 rev env o req) w = (Some resp, w') ->
  status resp = 200 ->
  exists u t,
    In u (docs (store w)) /\
    username u = login_username req /\
    verify eksblowfish (login_password req) (password u) = true /\
    body resp = JObj [("token", JToken t); ("user", user_json rev u)] /\
    userId (payload t) = _id u /\
    store w' = store w.
Proof.
  intros R S.
  destruct (login_outcome rev env o req w) as (resp0 & w0 & R0 & St & C).
  rewrite R0 in R. injection R as -> ->.
  destruct C as [(code & msg & -> & C) | (u & N & V & ->)].
  - simpl in S. lia.
  - unfold findOne in N. apply find_some in N. destruct N as [I E].
    simpl in E. apply String.eqb_eq in E.
    exists u. eexists. repeat split; eauto.
Qed.

(** X7. When no library call fails, Login succeeds exactly when the first
    record with the handle has a hash that verifies the plaintext. *)
Theorem login_succeeds_iff
    (rev : Revision) (env : Env) (o : Oracle) (req : LoginBody) (w : World) :
  healthy o ->
  exists resp w',
    run (login eksblowfish HS256 rev env o req) w = (Some resp, w') /\
    (status resp = 200 <->
     exists u, findOne (ByUsername (login_username req)) (store w) = Some u /\
               verify eksblowfish (login_password req) (password u) = true).
Proof.
  intros F.
  login_paths o req w; rewrite ?F in *; try discriminate;
    (do 2 eexists; split; [reflexivity|]; simpl).
  - split; [eauto | reflexivity].
  - split; [discriminate|]. intros (u' & [= <-] & V'). congruence.
  - split; [discriminate|]. intros (u' & [=] & _).
Qed.

(** No request removes or alters a stored record: records are only
    appended. *)
Lemma route_appends
    (rev : Revision) (env : Env) (o : Oracle) (r : Request) (w : World) :
  exists added,
    docs (store (snd (run (route eksblowfish HS256 rev env o r) w)))
    = (docs (store w) ++ added)%list.
Proof.
  destruct r as [req|req]; simpl.
  - destruct (register_outcome rev env o req w) as (resp & w' & R & C). rewrite R. simpl.
    destruct C as [(St & _) | (h & m & p & _ & _ & _ & _ & _ & St & _)]; rewrite St.
    + exists []. now rewrite app_nil_r.
    + eexists. reflexivity.
  - destruct (login_outcome rev env o req w) as (resp & w' & R & St & _).
    rewrite R. simpl. rewrite St. exists []. now rewrite app_nil_r.
Qed.

Lemma serve_appends
    (rev : Revision) (env : Env) (rs : list (Oracle * Request)) (w : World) :
  exists added,
    docs (store (snd (serve eksblowfish HS256 rev env rs w)))
    = (docs (store w) ++ added)%list.
Proof.
  revert w. induction rs as [|[o r] rs IH]; intros w; simpl.
  - exists []. now rewrite app_nil_r.
  - destruct (route_appends rev env o r w) as (a1 & D1).
    destruct (run (route eksblowfish HS256 rev env o r) w) as [a w1]. simpl in D1.
    destruct (IH w1) as (a2 & D2).
    destruct (serve eksblowfish HS256 rev env rs w1) as [answers w2]. simpl in *.
    exists (a1 ++ a2)%list. now rewrite D2, D1, app_assoc.
Qed.

Lemma register_refuses_existing
    (rev : Revision) (env : Env) (o : Oracle)
    (handle mail plaintext : string) (w : World) :
  fault o CFindOne = None ->
  handle <> "" -> mail <> "" -> plaintext <> "" ->
  (exists d, In d (docs (store w)) /\ (username d = handle \/ email d = mail)) ->
  run (register eksblowfish HS256 rev env o
         (mkRegisterBody (Some handle) (Some mail) (Some plaintext))) w
  = (Some (message 400 "User already exists"),
     mkWorld (store w) (calls w ++ [CFindOne]) (console w)).
Proof.
  intros F Hh Hm Hp P.
  destruct (findOne_present handle mail (store w) P) as (d & N).
  apply String.eqb_neq in Hh, Hm, Hp.
  unfold_route. simpl. rewrite Hh, Hm, Hp. simpl. now rewrite F, N.
Qed.

(** X8. Once a Register has succeeded, and whatever requests are served in
    between, a Register that reuses its handle or its email is refused
    with 400 "User already exists" after the lookup alone. *)
Theorem register_again
    (rev : Revision) (env : Env) (o1 o2 : Oracle) (rs : list (Oracle * Request))
    (req1 : RegisterBody) (handle mail plaintext : string)
    (w w1 : World) (resp : Response) :
  run (register eksblowfish HS256 rev env o1 req1) w = (Some resp, w1) ->
  status resp = 201 ->
  reg_username req1 = Some handle \/ reg_email req1 = Some mail ->
  fault o2 CFindOne = None ->
  handle <> "" -> mail <> "" -> plaintext <> "" ->
  let w2 := snd (serve eksblowfish HS256 rev env rs w1) in
  run (register eksblowfish HS256 rev env o2
         (mkRegisterBody (Some handle) (Some mail) (Some plaintext))) w2
  = (Some (message 400 "User already exists"),
     mkWorld (store w2) (calls w2 ++ [CFindOne]) (console w2)).
Proof.
  intros R S K F Hh Hm Hp w2.
  destruct (register_outcome rev env o1 req1 w) as (resp0 & w0 & R0 & C).
  rewrite R0 in R. injection R as -> ->.
  destruct C as [(_ & code & msg & -> & C) | (h & m & p & -> & _ & _ & _ & _ & St & _)];
    [simpl in S; lia|].
  apply register_refuses_existing; try assumption.
  destruct (serve_appends rev env rs w1) as (added & D). fold w2 in D.
  exists (registered eksblowfish o1 h m p w). split.
  - rewrite D, St. simpl. apply in_or_app. left. apply in_or_app. right. now left.
  - simpl in *. destruct K as [K|K]; injection K as ->; auto.
Qed.

(** X9. Logins only read: a sequence of Login requests, successful or not,
    leaves the store as it was. *)
Theorem logins_read_only
    (rev : Revision) (env : Env) (rs : list (Oracle * Request)) (w : World) :
  forallb (fun x => is_login (snd x)) rs = true ->
  store (snd (serve eksblowfish HS256 rev env rs w)) = store w.
Proof.
  revert w. induction rs as [|[o r] rs IH]; intros w L; simpl in *; [reflexivity|].
  apply andb_true_iff in L. destruct L as [L1 L2].
  destruct r as [req|req]; [discriminate|]. simpl.
  destruct (login_outcome rev env o req w) as (resp & w1 & R & St & _).
  rewrite R. specialize (IH w1 L2).
  destruct (serve eksblowfish HS256 rev env rs w1) as [answers w2]. simpl in *.
  congruence.
Qed.

(** X10. With [JWT_SECRET] set, every token is signed with its value, unless
    that value is the empty string: the key is then "secret", as when
    the variable is unset. *)
Theorem configured_secret
    (rev : Revision) (env : Env) (o : Oracle) (r : Request) (w w' : World)
    (resp : Response) (t : Jwt) (key : string) :
  JWT_SECRET env = Some key ->
  run (route eksblowfish HS256 rev env o r) w = (Some resp, w') ->
  prop "token" (body resp) = Some (JToken t) ->
  (key <> "" -> signed_with HS256 key t) /\
  (key = "" -> signed_with HS256 "secret" t).
Proof.
  intros E R T.
  destruct (route_grants rev env o r w w' resp R (or_intror (ex_intro _ _ T)))
    as (u & code & I & ->).
  simpl in T. injection T as <-.
  unfold signed_with, token_for, sign. rewrite E. simpl.
  split; intros K.
  - apply String.eqb_neq in K. now rewrite K.
  - subst key. reflexivity.
Qed.

(** X11. Register does not undo the insertion when signing fails after it:
    the client is answered 500 "Registration failed", the record is in
    the store, and a second attempt with the same handle and email is
    refused as a conflict. *)
Theorem sign_failure_keeps_record
    (rev : Revision) (env : Env) (o o2 : Oracle) (e : JsError)
    (handle mail plaintext plaintext2 : string) (w : World) :
  fault o CFindOne = None -> fault o CHash = None -> fault o CCreate = None ->
  fault o CSign = Some e ->
  handle <> "" -> mail <> "" -> plaintext <> "" ->
  (forall d, In d (docs (store w)) -> username d <> handle /\ email d <> mail) ->
  fault o2 CFindOne = None -> plaintext2 <> "" ->
  exists w',
    run (register eksblowfish HS256 rev env o
           (mkRegisterBody (Some handle) (Some mail) (Some plaintext))) w
    = (Some (message 500 "Registration failed"), w') /\
    docs (store w')
    = (docs (store w) ++ [registered eksblowfish o handle mail plaintext w])%list /\
    In (LogError "Register error:" (Some e)) (console w') /\
    fst (run (register eksblowfish HS256 rev env o2
                (mkRegisterBody (Some handle) (Some mail) (Some plaintext2))) w')
    = Some (message 400 "User already exists").
Proof.
  intros F1 F2 F3 F4 Hh Hm Hp A G Hp2.
  apply findOne_absent in A.
  pose proof Hh as Bh. pose proof Hm as Bm.
  apply String.eqb_neq in Bh, Bm, Hp.
  eexists. split.
  - unfold_route. simpl. rewrite Bh, Bm, Hp. simpl.
    rewrite F1, A. simpl. rewrite F2. simpl. rewrite F3. simpl.
    rewrite (find_none_existsb _ _ _ (fun d => orb_comm _ _) A).
    simpl. rewrite F4. simpl. reflexivity.
  - simpl. split; [reflexivity|]. split.
    + apply in_or_app. right. now left.
    + rewrite register_refuses_existing; try assumption; [reflexivity|].
      exists (registered eksblowfish o handle mail plaintext w). split.
      * simpl. apply in_or_app. right. now left.
      * now left.
Qed.

Lemma find_app_some {A} (f : A -> bool) (l r : list A) (x : A) :
  find f l = Some x -> find f (l ++ r) = Some x.
Proof.
  induction l as [|y l IH]; simpl; [discriminate|].
  destruct (f y); auto.
Qed.

(** X12. A user who has registered can log in from then on, whatever
    requests are served in between: Login with the handle and the
    plaintext of the registration answers 200, with the record that
    Register returned and a token for its [_id]. *)
Theorem login_after_register
    (rev : Revision) (env : Env) (o1 o2 : Oracle) (rs : list (Oracle * Request))
    (handle mail plaintext : string) (w w1 : World) (resp : Response) :
  run (register eksblowfish HS256 rev env o1
         (mkRegisterBody (Some handle) (Some mail) (Some plaintext))) w
  = (Some resp, w1) ->
  status resp = 201 ->
  String.length (random_salt o1) = 22 ->
  healthy o2 ->
  let w2 := snd (serve eksblowfish HS256 rev env rs w1) in
  exists u t,
    prop "user" (body resp) = Some (user_json rev u) /\
    run (login eksblowfish HS256 rev env o2 (mkLoginBody handle plaintext)) w2
    = (Some (mkResponse 200 (JObj [("token", JToken t); ("user", user_json rev u)])),
       mkWorld (store w2) (calls w2 ++ [CFindOne; CCompare; CSign]) (console w2)) /\
    userId (payload t) = _id u.
Proof.
  intros R S L F w2.
  destruct (register_outcome rev env o1
              (mkRegisterBody (Some handle) (Some mail) (Some plaintext)) w)
    as (resp0 & w0 & R0 & C).
  rewrite R0 in R. injection R as -> ->.
  destruct C as [(_ & code & msg & -> & C) | (h & m & p & E & _ & _ & _ & N & St & C)];
    [simpl in S; lia|].
  injection E as <- <- <-. simpl in St, C.
  destruct C as [-> | ->]; [|discriminate].
  destruct (serve_appends rev env rs w1) as (added & D). fold w2 in D.
  set (u := registered eksblowfish o1 handle mail plaintext w) in *.
  exists u, (token_for HS256 env o2 u).
  split; [reflexivity|]. split; [|reflexivity].
  apply login_granted; [exact F | |].
  - unfold findOne. rewrite D, St. simpl.
    apply find_app_some, find_app_last.
    + exact (find_username_none _ _ _ N).
    + simpl. apply String.eqb_refl.
  - apply verify_hashString; [lia | exact L].
Qed.

(** ** The upload route *)

(** X13. Without a file the upload is refused with 400 "No file uploaded":
    the media host is not called, and the refusal is logged. *)
Theorem upload_without_file (o : Oracle) (req : UploadRequest) (w : World) :
  file req = None ->
  run (upload o req) w
  = (Some (message 400 "No file uploaded"),
     mkWorld (store w) (calls w)
       (console w ++ [LogInfo "Upload route hit";
                      LogError "No video file uploaded" None])).
Proof.
  intros N. unfold_route. simpl. rewrite N. simpl.
  now rewrite <- app_assoc.
Qed.

(** X14. Every upload is answered; it is answered 200 exactly when the
    request has a file, the stream to the media host starts and the
    host reports a result. *)
Theorem upload_succeeds_iff (o : Oracle) (req : UploadRequest) (w : World) :
  exists resp w',
    run (upload o req) w = (Some resp, w') /\
    (status resp = 200 <->
     file req <> None /\ fault o CUploadStream = None /\
     exists result, cloudinary o = inr result).
Proof.
  unfold_route. simpl.
  destruct (file req) as [buffer|]; simpl.
  - destruct (fault o CUploadStream) as [e|]; simpl.
    + do 2 eexists. split; [reflexivity|]. simpl.
      split; [discriminate | intros (_ & [=] & _)].
    + destruct (cloudinary o) as [e|result]; simpl;
        (do 2 eexists; split; [reflexivity|]; simpl).
      * split; [discriminate | intros (_ & _ & r & [=])].
      * split; [intros _ | reflexivity]. repeat split; [discriminate | eauto].
  - do 2 eexists. split; [reflexivity|]. simpl.
    split; [discriminate | intros (A & _); contradiction].
Qed.

(** X15. A successful upload answers with the URL and the identifier the
    media host reported, and with the caption, song and location of
    the request, a missing one staying undefined. *)
Theorem upload_echo (o : Oracle) (req : UploadRequest) (w w' : World) (resp : Response) :
  run (upload o req) w = (Some resp, w') ->
  status resp = 200 ->
  exists result,
    cloudinary o = inr result /\
    prop "url" (body resp) = Some (JStr (secure_url result)) /\
    prop "public_id" (body resp) = Some (JStr (public_id result)) /\
    prop "metadata" (body resp)
    = Some (JObj [("caption", field (caption req));
                  ("songId", field (songId req));
                  ("location", field (location req))]).
Proof.
  unfold_route. simpl.
  destruct (file req) as [buffer|]; simpl; [|intros [= <- <-]; discriminate].
  destruct (fault o CUploadStream) as [e|]; simpl; [intros [= <- <-]; discriminate|].
  destruct (cloudinary o) as [e|result]; simpl; intros [= <- <-]; [discriminate|].
  intros _. exists result. repeat split.
Qed.

(** X16. The upload route takes no account of who calls it: its answer is
    the same whatever the store holds, and it leaves the store as it
    was. *)
Theorem upload_ignores_users (o : Oracle) (req : UploadRequest) (w1 w2 : World) :
  fst (run (upload o req) w1) = fst (run (upload o req) w2) /\
  store (snd (run (upload o req) w1)) = store w1.
Proof.
  unfold_route. simpl.
  destruct (file req) as [buffer|]; simpl; [|auto].
  destruct (fault o CUploadStream) as [e|]; simpl; [auto|].
  destruct (cloudinary o) as [e|result]; simpl; auto.
Qed.

End Routes.

Lemma register_empty_field_witness :
  run (register Sample.digest Sample.mac index_js Sample.env Sample.db_down
         (mkRegisterBody (Some "alice") (Some "a@x.com") (Some "")))
      (boot Sample.one_user)
  = (Some (message 400 "All fields required"), boot Sample.one_user).
Proof.
  apply register_empty_field. right; right; right; reflexivity.
Defined.

Lemma hash_twice_witness :
  exists h1 h2,
    fst (bcrypt_hash Sample.digest Sample.fine "pw123" 10 (boot empty_store)) = inr h1 /\
    fst (bcrypt_hash Sample.digest Sample.later "pw123" 10 (boot empty_store)) = inr h2 /\
    h1 <> h2 /\
    verify Sample.digest "pw123" h1 = true /\
    verify Sample.digest "pw123" h2 = true.
Proof.
  apply hash_twice; try reflexivity; [lia | discriminate].
Defined.

(** ** The theorems at work on sample requests *)

Lemma healthy_fine : healthy Sample.fine.
Proof. intros c. reflexivity. Defined.

Lemma healthy_later : healthy Sample.later.
Proof. intros c. reflexivity. Defined.

Lemma alice_registers :
  run (route Sample.digest Sample.mac index_js Sample.env Sample.fine
         (Register Sample.alice)) (boot empty_store)
  = (Some Sample.welcome, Sample.after_alice).
Proof. reflexivity. Defined.

Lemma store_ok_empty : store_ok empty_store.
Proof. repeat split; constructor. Defined.

Lemma register_then_login_witness :
  exists u t1 t2 w1 w2,
    run (register Sample.digest Sample.mac index_js Sample.env Sample.fine
           Sample.alice) (boot empty_store)
    = (Some (mkResponse 201 (JObj [("token", JToken t1); ("user", user_json index_js u)])),
       w1) /\
    docs (store w1) = [u] /\
    run (login Sample.digest Sample.mac index_js Sample.env Sample.later
           (mkLoginBody "alice" "pw123")) w1
    = (Some (mkResponse 200 (JObj [("token", JToken t2); ("user", user_json index_js u)])),
       w2) /\
    userId (payload t2) = _id u.
Proof.
  apply (register_then_login Sample.digest Sample.mac index_js Sample.env
           Sample.fine Sample.later "alice" "a@x.com" "pw123" (boot empty_store));
    try discriminate; try reflexivity.
  - exact healthy_fine.
  - exact healthy_later.
  - intros d [].
Defined.

Lemma register_conflict_witness :
  exists w',
    run (register Sample.digest Sample.mac index_js Sample.env Sample.fine
           (mkRegisterBody (Some "alice") (Some "b@x.com") (Some "pw456")))
        (boot Sample.two_users)
    = (Some (message 400 "User already exists"), w') /\
    store w' = Sample.two_users /\
    calls w' = [CFindOne] /\
    matching "alice" "b@x.com" (store w') = matching "alice" "b@x.com" Sample.two_users /\
    (store_ok Sample.two_users -> 1 <= length (matching "alice" "b@x.com" (store w')) <= 2).
Proof.
  apply (register_conflict Sample.digest Sample.mac index_js Sample.env Sample.fine
           "alice" "b@x.com" "pw456" (boot Sample.two_users));
    try discriminate; try reflexivity.
  exists Sample.alice_doc. split; [now left | now left].
Defined.

(** C2 as stated fails twice over. With "alice" and "bob" stored, a call
    with alice's handle and bob's email is refused as a conflict while
    two records match, not one; and with "alice" stored, a call with
    her handle and an empty plaintext is refused as a validation error,
    not as a conflict. *)
Lemma register_conflict_counterexample :
  run (register Sample.digest Sample.mac index_js Sample.env Sample.fine
         (mkRegisterBody (Some "alice") (Some "b@x.com") (Some "pw456")))
      (boot Sample.two_users)
  = (Some (message 400 "User already exists"),
     mkWorld Sample.two_users [CFindOne] []) /\
  length (matching "alice" "b@x.com" Sample.two_users) = 2 /\
  run (register Sample.digest Sample.mac index_js Sample.env Sample.fine
         (mkRegisterBody (Some "alice") (Some "other@x.com") (Some "")))
      (boot Sample.one_user)
  = (Some (message 400 "All fields required"), boot Sample.one_user).
Proof. repeat split. Qed.

Lemma login_refused_witness :
  run (login Sample.digest Sample.mac index_js Sample.env Sample.fine
         (mkLoginBody "bob" "pw123")) (boot Sample.one_user)
  = (Some (message 401 "User not found"), mkWorld Sample.one_user [CFindOne] []) /\
  run (login Sample.digest Sample.mac index_js Sample.env Sample.fine
         (mkLoginBody "alice" "wrong")) (boot Sample.one_user)
  = (Some (message 401 "Invalid password"),
     mkWorld Sample.one_user [CFindOne; CCompare] []).
Proof.
  split.
  - apply (login_refused Sample.digest Sample.mac index_js Sample.env Sample.fine
             "bob" "pw123" (boot Sample.one_user) healthy_fine).
    intros d [<-|[]]. discriminate.
  - apply (proj2 (login_refused Sample.digest Sample.mac index_js Sample.env Sample.fine
                    "alice" "wrong" (boot Sample.one_user) healthy_fine)
             Sample.alice_doc); reflexivity.
Defined.

Lemma response_shows_hash_witness :
  exists u,
    In u (docs (store Sample.after_alice)) /\
    prop "user" (body Sample.welcome) = Some (user_json index_js u) /\
    prop "password" (user_json index_js u) = Some (JStr (password u)).
Proof.
  apply (response_shows_hash Sample.digest Sample.mac index_js Sample.env Sample.fine
           (Register Sample.alice) (boot empty_store) Sample.after_alice Sample.welcome).
  - exact alice_registers.
  - reflexivity.
Defined.

(** C6 as stated fails: the response to alice's registration, and the
    response to her login, carry her stored password hash. *)
Lemma hash_hidden_counterexample :
  exists resp1 w1 resp2 w2 u1 u2,
    run (register Sample.digest Sample.mac index_js Sample.env Sample.fine
           Sample.alice) (boot empty_store) = (Some resp1, w1) /\
    status resp1 = 201 /\
    prop "user" (body resp1) = Some u1 /\
    prop "password" u1 = Some (JStr "$2a$10$abcdefghijklmnopqrstuv#pw123") /\
    map password (docs (store w1)) = ["$2a$10$abcdefghijklmnopqrstuv#pw123"] /\
    run (login Sample.digest Sample.mac index_js Sample.env Sample.later
           (mkLoginBody "alice" "pw123")) w1 = (Some resp2, w2) /\
    status resp2 = 200 /\
    prop "user" (body resp2) = Some u2 /\
    prop "password" u2 = Some (JStr "$2a$10$abcdefghijklmnopqrstuv#pw123").
Proof. do 6 eexists. repeat split. Qed.

Lemma token_ttl_witness :
  validate Sample.mac "secret" 87399 Sample.alice_token = Some 0 /\
  validate Sample.mac "secret" 87400 Sample.alice_token = None.
Proof.
  destruct (token_ttl Sample.digest Sample.mac index_js Sample.env Sample.fine
              (Register Sample.alice) (boot empty_store) Sample.after_alice
              Sample.welcome Sample.alice_token alice_registers eq_refl)
    as (_ & _ & _ & V & X).
  split; [apply V | apply X]; reflexivity || (simpl; unfold day; lia).
Defined.

Lemma invariants_preserved_witness :
  let w' := snd (serve Sample.digest Sample.mac index_js Sample.env
                   [(Sample.fine, Register Sample.alice);
                    (Sample.later, Register Sample.alice);
                    (Sample.later, Login (mkLoginBody "alice" "pw123"))]
                   (boot empty_store)) in
  store_ok (store w') /\
  exists added,
    docs (store w') = added /\ Forall zero_counters added.
Proof.
  apply (invariants_preserved Sample.digest Sample.mac index_js Sample.env
           [(Sample.fine, Register Sample.alice);
            (Sample.later, Register Sample.alice);
            (Sample.later, Login (mkLoginBody "alice" "pw123"))]
           (boot empty_store) store_ok_empty).
Defined.

Lemma internal_failure_answer_witness :
  exists resp w',
    run (dispatch Sample.digest Sample.mac Sample.env Sample.db_down
           (Auth index_js (Register Sample.alice))) (boot empty_store)
    = (Some resp, w') /\
    status resp = 500 /\
    (exists label,
       In (LogError label (Some (mkError "MongoNetworkError" "connect ECONNREFUSED")))
          (console w')) /\
    body resp = JObj [("message", JStr "Registration failed")].
Proof.
  apply (internal_failure_answer Sample.digest Sample.mac Sample.env
           Sample.db_down (Auth index_js (Register Sample.alice)) (boot empty_store)
           (mkError "MongoNetworkError" "connect ECONNREFUSED")).
  reflexivity.
Defined.

(** C9 as stated fails on the upload route: when the media host calls
    back with an error, the 500 response carries that error next to
    its message. *)
Lemma generic_message_counterexample :
  internal_failure Sample.digest Sample.mac Sample.env Sample.later
    (Upload Sample.clip) (boot empty_store) Sample.cloud_error /\
  exists resp w',
    run (dispatch Sample.digest Sample.mac Sample.env Sample.later
           (Upload Sample.clip)) (boot empty_store) = (Some resp, w') /\
    status resp = 500 /\
    prop "error" (body resp) = Some (JErr (mkError "Error" "Invalid cloud_name demo")) /\
    ~ generic (body resp).
Proof.
  split.
  - right. repeat split. discriminate.
  - do 2 eexists. split; [reflexivity|]. simpl.
    do 2 (split; [reflexivity|]). intros [msg H]. discriminate H.
Qed.

Lemma default_secret_witness : signed_with Sample.mac "secret" Sample.alice_token.
Proof.
  apply (default_secret Sample.digest Sample.mac index_js Sample.env Sample.fine
           (Register Sample.alice) (boot empty_store) Sample.after_alice
           Sample.welcome Sample.alice_token eq_refl alice_registers eq_refl).
Defined.

(** ** The videos of the later revisions *)

Lemma insert_desc_perm (v : Video.doc) (l : list Video.doc) :
  Permutation (v :: l) (insert_desc v l).
Proof.
  induction l as [|x l IH]; simpl; [reflexivity|].
  destruct (Video.uploadedAt x <? Video.uploadedAt v)%Z; [reflexivity|].
  rewrite perm_swap. now constructor.
Qed.

Lemma sort_desc_perm (l : list Video.doc) : Permutation l (sort_desc l).
Proof.
  induction l as [|v l IH]; simpl; [constructor|].
  rewrite <- insert_desc_perm. now constructor.
Qed.

Lemma insert_desc_sorted (v : Video.doc) (l : list Video.doc) :
  newest_first l -> newest_first (insert_desc v l).
Proof.
  unfold newest_first. induction 1 as [|x l S IH F]; simpl.
  - repeat constructor.
  - destruct (Z.ltb_spec (Video.uploadedAt x) (Video.uploadedAt v)).
    + constructor; [now constructor|].
      constructor; [lia|]. eapply Forall_impl; [|exact F]. simpl. intros; lia.
    + constructor; [exact IH|].
      eapply Permutation_Forall; [apply insert_desc_perm|].
      constructor; [lia | exact F].
Qed.

Lemma sort_desc_sorted (l : list Video.doc) : newest_first (sort_desc l).
Proof.
  induction l as [|v l IH]; simpl; [constructor | now apply insert_desc_sorted].
Qed.

Section VideoRoutes.

Variable castObjectId : string -> option ObjectId.
Variable isValid : string -> bool.

Ltac unfold_video :=
  unfold video_run, list_videos, user_videos, upload_first, upload_second,
    Video_find, Video_create, Video_create_owned, User_findById, insert_video,
    start_stream, video_library, lift, vtry, vbind, vret,
    library, console_log, console_error, ret in *.

(** X17. [GET /api/videos], when the query does not fail, answers 200 with
    all the stored videos, each once, the most recent first. *)
Theorem list_videos_newest_first (out : Outside) (s : Site) :
  video_fault out CVideoFind = None ->
  exists vs,
    video_run (list_videos castObjectId out) s
    = (Some (mkVideoResponse 200 (VList vs)),
       mkSite (world s) (collection s) (next_video s) (queries s ++ [CVideoFind])) /\
    Permutation (collection s) vs /\
    newest_first vs.
Proof.
  intros F. exists (sort_desc (collection s)).
  split; [|split; [apply sort_desc_perm | apply sort_desc_sorted]].
  unfold_video. simpl. now rewrite F.
Qed.

(** X18. [GET /api/users/:userId/videos] refuses an identifier that
    [ObjectId.isValid] rejects with 400 "Invalid user ID format",
    without querying the store. *)
Theorem user_videos_invalid (out : Outside) (id : string) (s : Site) :
  isValid id = false ->
  video_run (user_videos castObjectId isValid out id) s
  = (Some (reply 400 "Invalid user ID format"), s).
Proof.
  intros V. unfold video_run, user_videos. now rewrite V.
Qed.

(** X19. For a valid identifier, when the query does not fail, the route
    answers 200 with exactly the videos of that owner, the most recent
    first. *)
Theorem user_videos_newest_first
    (out : Outside) (id : string) (i : ObjectId) (s : Site) :
  isValid id = true ->
  castObjectId id = Some i ->
  video_fault out CVideoFind = None ->
  exists vs,
    video_run (user_videos castObjectId isValid out id) s
    = (Some (mkVideoResponse 200 (VList vs)),
       mkSite (world s) (collection s) (next_video s) (queries s ++ [CVideoFind])) /\
    Permutation (filter (owned_by i) (collection s)) vs /\
    (forall v, In v vs <-> In v (collection s) /\ Video.userId v = Some i) /\
    newest_first vs.
Proof.
  intros V C F. exists (sort_desc (filter (owned_by i) (collection s))).
  split; [|split; [apply sort_desc_perm | split; [|apply sort_desc_sorted]]].
  - unfold_video. simpl. now rewrite V, F, C.
  - intros v. rewrite <- (Permutation_in' (eq_refl v) (sort_desc_perm _)).
    rewrite filter_In. unfold owned_by.
    destruct (Video.userId v) as [j|]; [|split; intros [? ?]; discriminate].
    rewrite Nat.eqb_eq. split; intros [I E]; split; congruence.
Qed.


(** The paths of the two upload routes, for proofs by cases. *)
Ltac first_paths out req :=
  unfold_video; simpl;
  destruct (file req) as [?buffer|] eqn:?; simpl;
  [ destruct (fault (oracle out) CUploadStream) eqn:?; simpl;
    [ | destruct (cloudinary (oracle out)) as [?err|?result] eqn:?; simpl;
        [ | destruct (video_fault out CVideoCreate) eqn:?; simpl ] ]
  | ].

Ltac second_paths out req s :=
  unfold_video; simpl;
  destruct (file (upload_fields req)) as [?buffer|] eqn:?; simpl;
  [ destruct (falsy (upload_userId req)) eqn:?; simpl;
    [ | destruct (video_fault out CFindById) eqn:?; simpl;
        [ | destruct (castObjectId (str (upload_userId req))) as [?i|] eqn:?; simpl;
            [ match goal with
              | |- context [find ?f ?l] => destruct (find f l) as [?u|] eqn:?; simpl
              end;
              [ destruct (fault (oracle out) CUploadStream) eqn:?; simpl;
                [ | destruct (cloudinary (oracle out)) as [?err|?result] eqn:?; simpl;
                    [ | destruct (video_fault out CVideoCreate) eqn:?; simpl ] ]
              | ]
            | ] ] ]
  | ].

(** X21. Second revision: an upload without a file, or without a user
    identifier, is refused with 400 before anything is looked up. *)
Theorem upload_second_missing (out : Outside) (req : OwnedUpload) (s : Site) :
  file (upload_fields req) = None \/ empty (upload_userId req) ->
  video_run (upload_second castObjectId out req) s
  = (Some (reply 400 "Missing video file or user ID"), s).
Proof.
  intros H. rewrite <- falsy_empty in H.
  second_paths out req s; try reflexivity; destruct H; congruence.
Qed.

(** X22. Second revision: when no user has the identifier, the upload is
    refused with 404 "User not found"; the media host is not called and
    no video is stored. *)
Theorem upload_second_unknown_user
    (out : Outside) (req : OwnedUpload) (id : string) (i : ObjectId) (s : Site) :
  file (upload_fields req) <> None ->
  upload_userId req = Some id -> id <> "" ->
  video_fault out CFindById = None ->
  castObjectId id = Some i ->
  (forall u, In u (docs (store (world s))) -> _id u <> i) ->
  video_run (upload_second castObjectId out req) s
  = (Some (reply 404 "User not found"),
     mkSite (world s) (collection s) (next_video s) (queries s ++ [CFindById])).
Proof.
  intros Hf Hu Hi F C A.
  assert (N : find (fun u => Nat.eqb (_id u) i) (docs (store (world s))) = None).
  { destruct (find _ _) as [u|] eqn:E; [|reflexivity].
    apply find_some in E. destruct E as [I E]. apply Nat.eqb_eq in E.
    now apply A in I. }
  apply String.eqb_neq in Hi.
  second_paths out req s; rewrite ?Hu in *; simpl in *; rewrite ?C in *;
    try congruence;
    try match goal with
        | H : Some i = Some ?j |- _ => injection H as <-; congruence
        end.
Qed.

(** X23. Second revision: a user identifier that is not an ObjectId makes
    the lookup throw; the route answers 500 "Upload error" with the
    cast error in the body, and the media host is not called. *)
Theorem upload_second_bad_id
    (out : Outside) (req : OwnedUpload) (id : string) (s : Site) :
  file (upload_fields req) <> None ->
  upload_userId req = Some id -> id <> "" ->
  video_fault out CFindById = None ->
  castObjectId id = None ->
  exists s',
    video_run (upload_second castObjectId out req) s
    = (Some (failure 500 "Upload error" CastError), s') /\
    calls (world s') = calls (world s) /\
    collection s' = collection s /\
    In (LogError "Upload error:" (Some CastError)) (console (world s')).
Proof.
  intros Hf Hu Hi F C.
  apply String.eqb_neq in Hi.
  second_paths out req s; rewrite ?Hu in *; simpl in *; try congruence.
  eexists. split; [reflexivity|]. simpl. repeat split.
  apply in_or_app. right. now left.
Qed.

(** X24. Second revision: an upload answered 200 was made for a stored
    user, and appended exactly one video: it belongs to that user, has
    the URL and identifier the media host reported and the caption,
    song and location of the request, and is dated by the clock. *)
Theorem upload_second_stores
    (out : Outside) (req : OwnedUpload) (s s' : Site) (resp : VideoResponse) :
  video_run (upload_second castObjectId out req) s = (Some resp, s') ->
  video_status resp = 200 ->
  exists v u result,
    resp = mkVideoResponse 200 (VUploaded "Upload successful" v) /\
    collection s' = (collection s ++ [v])%list /\
    In u (docs (store (world s))) /\
    castObjectId (str (upload_userId req)) = Some (_id u) /\
    Video.userId v = Some (_id u) /\
    cloudinary (oracle out) = inr result /\
    Video.url v = secure_url result /\
    Video.public_id v = public_id result /\
    Video.caption v = caption (upload_fields req) /\
    Video.songId v = songId (upload_fields req) /\
    Video.location v = location (upload_fields req) /\
    Video.uploadedAt v = date_now out.
Proof.
  second_paths out req s; intros [= <- <-]; try discriminate. intros _.
  match goal with H : find _ _ = Some _ |- _ =>
    apply find_some in H; destruct H as [I E]; apply Nat.eqb_eq in E end.
  subst. do 3 eexists. repeat split; eauto.
Qed.

(** X25. First revision: an upload answered 200 appended exactly one video,
    with the URL and identifier the media host reported and the
    caption, song and location of the request, dated by the clock. *)
Theorem upload_first_stores
    (out : Outside) (req : UploadRequest) (s s' : Site) (resp : VideoResponse) :
  video_run (upload_first out req) s = (Some resp, s') ->
  video_status resp = 200 ->
  exists v result,
    resp = mkVideoResponse 200 (VUploaded "Upload successful" v) /\
    collection s' = (collection s ++ [v])%list /\
    cloudinary (oracle out) = inr result /\
    Video.url v = secure_url result /\
    Video.public_id v = public_id result /\
    Video.caption v = caption req /\
    Video.songId v = songId req /\
    Video.location v = location req /\
    Video.uploadedAt v = date_now out.
Proof.
  first_paths out req; intros [= <- <-]; try discriminate. intros _.
  do 2 eexists. repeat split; eauto.
Qed.

(** X26. First revision: an upload is left unanswered exactly when the file
    reached the media host and storing the video then failed; no video
    is stored in that case. *)
Theorem upload_first_unanswered (out : Outside) (req : UploadRequest) (s : Site) :
  (fst (video_run (upload_first out req) s) = None <->
   file req <> None /\ fault (oracle out) CUploadStream = None /\
   (exists result, cloudinary (oracle out) = inr result) /\
   video_fault out CVideoCreate <> None)
  /\
  (fst (video_run (upload_first out req) s) = None ->
   collection (snd (video_run (upload_first out req) s)) = collection s /\
   In CUploadStream (calls (world (snd (video_run (upload_first out req) s))))).
Proof.
  first_paths out req; (split; [split|]); try discriminate;
    try (intros (A & B & (r & C) & D); congruence).
  - intros _. repeat split; try congruence; eauto.
  - intros _. split; [reflexivity|]. apply in_or_app. right. now left.
Qed.

(** X27. Second revision: likewise, an upload is left unanswered exactly
    when the user was found, the file reached the media host and
    storing the video then failed. *)
Theorem upload_second_unanswered (out : Outside) (req : OwnedUpload) (s : Site) :
  (fst (video_run (upload_second castObjectId out req) s) = None <->
   file (upload_fields req) <> None /\ ~ empty (upload_userId req) /\
   video_fault out CFindById = None /\
   (exists u, In u (docs (store (world s))) /\
              castObjectId (str (upload_userId req)) = Some (_id u)) /\
   fault (oracle out) CUploadStream = None /\
   (exists result, cloudinary (oracle out) = inr result) /\
   video_fault out CVideoCreate <> None)
  /\
  (fst (video_run (upload_second castObjectId out req) s) = None ->
   collection (snd (video_run (upload_second castObjectId out req) s)) = collection s /\
   In CUploadStream
      (calls (world (snd (video_run (upload_second castObjectId out req) s))))).
Proof.
  assert (K : forall i, castObjectId (str (upload_userId req)) = Some i ->
                find (fun u => Nat.eqb (_id u) i) (docs (store (world s))) = None ->
                ~ exists u, In u (docs (store (world s))) /\
                            castObjectId (str (upload_userId req)) = Some (_id u)).
  { intros i C N (u & I & C'). rewrite C in C'. injection C' as ->.
    apply (find_none _ _ N) in I. simpl in I. now rewrite Nat.eqb_refl in I. }
  rewrite <- falsy_empty.
  second_paths out req s; (split; [split|]); try discriminate;
    try (intros (A & B & C & (u' & D & D') & E & (r & F) & G); congruence).
  - intros _. repeat split; try congruence; eauto.
    match goal with H : find _ _ = Some ?u |- _ =>
      apply find_some in H; destruct H as [I E]; apply Nat.eqb_eq in E;
      exists u; split; [exact I | congruence] end.
  - intros _. split; [reflexivity|]. apply in_or_app. right. now left.
  - intros (A & B & C & D & _). exfalso. eapply K; eauto.
Qed.

(** The upload of the second revision, when answered 200. *)
Lemma upload_second_stores_lemma
    (out : Outside) (req : OwnedUpload) (s s' : Site) (resp : VideoResponse) :
  video_run (upload_second castObjectId out req) s = (Some resp, s') ->
  video_status resp = 200 ->
  exists v u,
    resp = mkVideoResponse 200 (VUploaded "Upload successful" v) /\
    castObjectId (str (upload_userId req)) = Some (_id u) /\
    Video.userId v = Some (_id u) /\
    collection s' = (collection s ++ [v])%list.
Proof.
  second_paths out req s; intros [= <- <-]; try discriminate. intros _.
  match goal with H : find _ _ = Some _ |- _ =>
    apply find_some in H; destruct H as [I E]; apply Nat.eqb_eq in E end.
  subst. do 2 eexists. repeat split; eauto.
Qed.

(** X28. Second revision: a video uploaded for a user is in the listing of
    that user, and in the listing of all videos, from then on. *)
Theorem uploaded_video_is_listed
    (out out2 : Outside) (req : OwnedUpload) (id : string) (s s' : Site)
    (msg : string) (v : Video.doc) :
  video_run (upload_second castObjectId out req) s
  = (Some (mkVideoResponse 200 (VUploaded msg v)), s') ->
  upload_userId req = Some id ->
  isValid id = true ->
  video_fault out2 CVideoFind = None ->
  exists mine all s1 s2,
    video_run (user_videos castObjectId isValid out2 id) s'
    = (Some (mkVideoResponse 200 (VList mine)), s1) /\
    In v mine /\
    video_run (list_videos castObjectId out2) s'
    = (Some (mkVideoResponse 200 (VList all)), s2) /\
    In v all.
Proof.
  intros R U V F.
  destruct (upload_second_stores_lemma out req s s' _ R eq_refl)
    as (v' & u & D & C & O & D0).
  injection D as _ <-. rewrite U in C. simpl in C.
  exists (sort_desc (filter (owned_by (_id u)) (collection s'))),
         (sort_desc (collection s')).
  do 2 eexists.
  split; [unfold_video; simpl; rewrite V, F, C; reflexivity|].
  assert (I : In v (collection s')) by (rewrite D0; apply in_or_app; right; now left).
  split.
  - apply (Permutation_in _ (sort_desc_perm _)). apply filter_In. split; [exact I|].
    unfold owned_by. rewrite O. apply Nat.eqb_refl.
  - split; [unfold_video; simpl; rewrite F; reflexivity|].
    apply (Permutation_in _ (sort_desc_perm _)). exact I.
Qed.

End VideoRoutes.

(** ** The further theorems at work on sample requests *)

Lemma register_succeeds_iff_witness :
  exists resp w',
    run (register Sample.digest Sample.mac index_js Sample.env Sample.fine Sample.alice)
        (boot empty_store) = (Some resp, w') /\
    (status resp = 201 <->
     ~ empty (Some "alice") /\ ~ empty (Some "a@x.com") /\ ~ empty (Some "pw123") /\
     forall d, In d [] -> username d <> "alice" /\ email d <> "a@x.com").
Proof.
  exact (register_succeeds_iff Sample.digest Sample.mac index_js Sample.env Sample.fine
           Sample.alice (boot empty_store) healthy_fine).
Defined.

Lemma alice_registers_alone :
  run (register Sample.digest Sample.mac index_js Sample.env Sample.fine Sample.alice)
      (boot empty_store)
  = (Some Sample.welcome, Sample.after_alice).
Proof. reflexivity. Defined.

Lemma register_stores_record_witness :
  exists u t,
    body Sample.welcome = JObj [("token", JToken t); ("user", user_json index_js u)] /\
    docs (store Sample.after_alice) = [u] /\
    Some "alice" = Some (username u) /\
    Some "a@x.com" = Some (email u) /\
    password u = hashString Sample.digest 10 "abcdefghijklmnopqrstuv" "pw123" /\
    zero_counters u /\
    userId (payload t) = _id u.
Proof.
  exact (register_stores_record Sample.digest Sample.mac index_js Sample.env Sample.fine
           Sample.alice (boot empty_store) Sample.after_alice Sample.welcome
           alice_registers_alone eq_refl).
Defined.

Lemma alice_logs_in :
  run (login Sample.digest Sample.mac index_js Sample.env Sample.later
         (mkLoginBody "alice" "pw123")) (boot Sample.one_user)
  = (Some (granted Sample.mac 200 index_js Sample.env Sample.later Sample.alice_doc),
     mkWorld Sample.one_user [CFindOne; CCompare; CSign] []).
Proof. reflexivity. Defined.

Lemma login_sound_witness :
  exists u t,
    In u [Sample.alice_doc] /\
    username u = "alice" /\
    verify Sample.digest "pw123" (password u) = true /\
    body (granted Sample.mac 200 index_js Sample.env Sample.later Sample.alice_doc)
    = JObj [("token", JToken t); ("user", user_json index_js u)] /\
    userId (payload t) = _id u /\
    Sample.one_user = Sample.one_user.
Proof.
  exact (login_sound Sample.digest Sample.mac index_js Sample.env Sample.later
           (mkLoginBody "alice" "pw123") (boot Sample.one_user)
           (mkWorld Sample.one_user [CFindOne; CCompare; CSign] [])
           _ alice_logs_in eq_refl).
Defined.

Lemma login_succeeds_iff_witness :
  exists resp w',
    run (login Sample.digest Sample.mac index_js Sample.env Sample.later
           (mkLoginBody "alice" "wrong")) (boot Sample.one_user) = (Some resp, w') /\
    (status resp = 200 <->
     exists u, findOne (ByUsername "alice") Sample.one_user = Some u /\
               verify Sample.digest "wrong" (password u) = true).
Proof.
  exact (login_succeeds_iff Sample.digest Sample.mac index_js Sample.env Sample.later
           (mkLoginBody "alice" "wrong") (boot Sample.one_user) healthy_later).
Defined.

Lemma register_again_witness :
  let w2 := snd (serve Sample.digest Sample.mac index_js Sample.env
                   [(Sample.later, Login (mkLoginBody "alice" "pw123"))]
                   Sample.after_alice) in
  run (register Sample.digest Sample.mac index_js Sample.env Sample.later
         (mkRegisterBody (Some "alice") (Some "other@x.com") (Some "pw456"))) w2
  = (Some (message 400 "User already exists"),
     mkWorld (store w2) (calls w2 ++ [CFindOne]) (console w2)).
Proof.
  apply (register_again Sample.digest Sample.mac index_js Sample.env
           Sample.fine Sample.later
           [(Sample.later, Login (mkLoginBody "alice" "pw123"))]
           Sample.alice "alice" "other@x.com" "pw456"
           (boot empty_store) Sample.after_alice Sample.welcome
           alice_registers_alone eq_refl (or_introl eq_refl) eq_refl);
    discriminate.
Defined.

Lemma logins_read_only_witness :
  store (snd (serve Sample.digest Sample.mac index_js Sample.env
                [(Sample.fine, Login (mkLoginBody "alice" "pw123"));
                 (Sample.db_down, Login (mkLoginBody "alice" "pw123"));
                 (Sample.later, Login (mkLoginBody "bob" "x"))]
                (boot Sample.one_user)))
  = Sample.one_user.
Proof.
  exact (logins_read_only Sample.digest Sample.mac index_js Sample.env
           [(Sample.fine, Login (mkLoginBody "alice" "pw123"));
            (Sample.db_down, Login (mkLoginBody "alice" "pw123"));
            (Sample.later, Login (mkLoginBody "bob" "x"))]
           (boot Sample.one_user) eq_refl).
Defined.

Lemma alice_registers_keyed :
  run (route Sample.digest Sample.mac index_js Sample.keyed Sample.fine
         (Register Sample.alice)) (boot empty_store)
  = (Some (granted Sample.mac 201 index_js Sample.keyed Sample.fine Sample.alice_doc),
     Sample.after_alice).
Proof. reflexivity. Defined.

Lemma configured_secret_witness :
  ("k3y" <> "" ->
   signed_with Sample.mac "k3y" (token_for Sample.mac Sample.keyed Sample.fine Sample.alice_doc))
  /\
  ("k3y" = "" ->
   signed_with Sample.mac "secret"
     (token_for Sample.mac Sample.keyed Sample.fine Sample.alice_doc)).
Proof.
  exact (configured_secret Sample.digest Sample.mac index_js Sample.keyed Sample.fine
           (Register Sample.alice) (boot empty_store) Sample.after_alice _ _ "k3y"
           eq_refl alice_registers_keyed eq_refl).
Defined.

Lemma sign_failure_keeps_record_witness :
  exists w',
    run (register Sample.digest Sample.mac index_js Sample.env Sample.sign_down
           (mkRegisterBody (Some "alice") (Some "a@x.com") (Some "pw123")))
        (boot empty_store)
    = (Some (message 500 "Registration failed"), w') /\
    docs (store w') = [Sample.alice_doc] /\
    In (LogError "Register error:"
          (Some (mkError "Error" "secretOrPrivateKey must have a value"))) (console w') /\
    fst (run (register Sample.digest Sample.mac index_js Sample.env Sample.fine
                (mkRegisterBody (Some "alice") (Some "a@x.com") (Some "pw123"))) w')
    = Some (message 400 "User already exists").
Proof.
  apply (sign_failure_keeps_record Sample.digest Sample.mac index_js Sample.env
           Sample.sign_down Sample.fine
           (mkError "Error" "secretOrPrivateKey must have a value")
           "alice" "a@x.com" "pw123" "pw123" (boot empty_store));
    try reflexivity; try discriminate.
  intros d [].
Defined.

Lemma login_after_register_witness :
  let w2 := snd (serve Sample.digest Sample.mac index_js Sample.env
                   [(Sample.later, Register (mkRegisterBody (Some "bob") (Some "b@x.com")
                                                            (Some "hunter2")))]
                   Sample.after_alice) in
  exists u t,
    prop "user" (body Sample.welcome) = Some (user_json index_js u) /\
    run (login Sample.digest Sample.mac index_js Sample.env Sample.later
           (mkLoginBody "alice" "pw123")) w2
    = (Some (mkResponse 200 (JObj [("token", JToken t); ("user", user_json index_js u)])),
       mkWorld (store w2) (calls w2 ++ [CFindOne; CCompare; CSign]) (console w2)) /\
    userId (payload t) = _id u.
Proof.
  exact (login_after_register Sample.digest Sample.mac index_js Sample.env
           Sample.fine Sample.later
           [(Sample.later, Register (mkRegisterBody (Some "bob") (Some "b@x.com")
                                                    (Some "hunter2")))]
           "alice" "a@x.com" "pw123" (boot empty_store) Sample.after_alice Sample.welcome
           alice_registers_alone eq_refl eq_refl healthy_later).
Defined.

Lemma upload_without_file_witness :
  run (upload Sample.fine (mkUploadRequest None (Some "hello") None None))
      (boot empty_store)
  = (Some (message 400 "No file uploaded"),
     mkWorld empty_store []
       [LogInfo "Upload route hit"; LogError "No video file uploaded" None]).
Proof.
  exact (upload_without_file Sample.fine (mkUploadRequest None (Some "hello") None None)
           (boot empty_store) eq_refl).
Defined.

Lemma clip_uploads :
  run (upload Sample.fine Sample.clip) (boot empty_store)
  = (Some (mkResponse 200
             (JObj [("message", JStr "Upload successful");
                    ("url", JStr "https://media/v.mp4");
                    ("public_id", JStr "v1");
                    ("metadata", JObj [("caption", JStr "hello");
                                       ("songId", JUndefined);
                                       ("location", JUndefined)])])),
     mkWorld empty_store [CUploadStream]
       [LogInfo "Upload route hit"; LogInfo "Upload success: https://media/v.mp4"]).
Proof. reflexivity. Defined.

Lemma upload_echo_witness :
  exists result,
    cloudinary Sample.fine = inr result /\
    Some (JStr "https://media/v.mp4") = Some (JStr (secure_url result)) /\
    Some (JStr "v1") = Some (JStr (public_id result)) /\
    Some (JObj [("caption", JStr "hello"); ("songId", JUndefined);
                ("location", JUndefined)])
    = Some (JObj [("caption", field (caption Sample.clip));
                  ("songId", field (songId Sample.clip));
                  ("location", field (location Sample.clip))]).
Proof.
  exact (upload_echo Sample.fine Sample.clip (boot empty_store) _ _ clip_uploads eq_refl).
Defined.

Lemma list_videos_newest_first_witness :
  exists vs,
    video_run (list_videos Sample.cast Sample.calm) Sample.library_site
    = (Some (mkVideoResponse 200 (VList vs)),
       mkSite (boot Sample.two_users)
              [Sample.old_clip; Sample.new_clip; Sample.mid_clip] 3 [CVideoFind]) /\
    Permutation [Sample.old_clip; Sample.new_clip; Sample.mid_clip] vs /\
    newest_first vs.
Proof.
  exact (list_videos_newest_first Sample.cast Sample.calm Sample.library_site eq_refl).
Defined.

Lemma user_videos_invalid_witness :
  video_run (user_videos Sample.cast Sample.valid Sample.calm "alice") Sample.library_site
  = (Some (reply 400 "Invalid user ID format"), Sample.library_site).
Proof.
  exact (user_videos_invalid Sample.cast Sample.valid Sample.calm "alice"
           Sample.library_site eq_refl).
Defined.

Lemma user_videos_newest_first_witness :
  exists vs,
    video_run (user_videos Sample.cast Sample.valid Sample.calm "00") Sample.library_site
    = (Some (mkVideoResponse 200 (VList vs)),
       mkSite (boot Sample.two_users)
              [Sample.old_clip; Sample.new_clip; Sample.mid_clip] 3 [CVideoFind]) /\
    Permutation [Sample.old_clip; Sample.mid_clip] vs /\
    (forall v, In v vs <->
               In v [Sample.old_clip; Sample.new_clip; Sample.mid_clip] /\
               Video.userId v = Some 0) /\
    newest_first vs.
Proof.
  exact (user_videos_newest_first Sample.cast Sample.valid Sample.calm "00" 0
           Sample.library_site eq_refl eq_refl eq_refl).
Defined.

Lemma upload_second_missing_witness :
  video_run (upload_second Sample.cast Sample.calm (mkOwnedUpload Sample.clip None))
            Sample.library_site
  = (Some (reply 400 "Missing video file or user ID"), Sample.library_site).
Proof.
  apply (upload_second_missing Sample.cast Sample.calm (mkOwnedUpload Sample.clip None)
           Sample.library_site).
  right. left. reflexivity.
Defined.

Lemma upload_second_unknown_user_witness :
  video_run (upload_second Sample.cast Sample.calm Sample.stranger_clip)
            Sample.library_site
  = (Some (reply 404 "User not found"),
     mkSite (boot Sample.two_users)
            [Sample.old_clip; Sample.new_clip; Sample.mid_clip] 3 [CFindById]).
Proof.
  apply (upload_second_unknown_user Sample.cast Sample.calm Sample.stranger_clip
           "07" 7 Sample.library_site); try discriminate; try reflexivity.
  intros u [<-|[<-|[]]]; discriminate.
Defined.

Lemma upload_second_bad_id_witness :
  exists s',
    video_run (upload_second Sample.cast Sample.calm Sample.garbled_clip)
              Sample.library_site
    = (Some (failure 500 "Upload error" CastError), s') /\
    calls (world s') = [] /\
    collection s' = [Sample.old_clip; Sample.new_clip; Sample.mid_clip] /\
    In (LogError "Upload error:" (Some CastError)) (console (world s')).
Proof.
  apply (upload_second_bad_id Sample.cast Sample.calm Sample.garbled_clip
           "user-1" Sample.library_site); try discriminate; reflexivity.
Defined.

Lemma owned_clip_uploads :
  video_run (upload_second Sample.cast Sample.calm Sample.owned_clip) Sample.library_site
  = (Some (mkVideoResponse 200 (VUploaded "Upload successful" Sample.uploaded)),
     mkSite (mkWorld Sample.two_users [CUploadStream] [])
            [Sample.old_clip; Sample.new_clip; Sample.mid_clip; Sample.uploaded] 4
            [CFindById; CVideoCreate]).
Proof. reflexivity. Defined.

Lemma upload_second_stores_witness :
  exists v u result,
    mkVideoResponse 200 (VUploaded "Upload successful" Sample.uploaded)
    = mkVideoResponse 200 (VUploaded "Upload successful" v) /\
    [Sample.old_clip; Sample.new_clip; Sample.mid_clip; Sample.uploaded]
    = [Sample.old_clip; Sample.new_clip; Sample.mid_clip; v] /\
    In u [Sample.alice_doc; Sample.bob_doc] /\
    Sample.cast "00" = Some (_id u) /\
    Video.userId v = Some (_id u) /\
    cloudinary Sample.fine = inr result /\
    Video.url v = secure_url result /\
    Video.public_id v = public_id result /\
    Video.caption v = Some "hello" /\
    Video.songId v = None /\
    Video.location v = None /\
    Video.uploadedAt v = 5000%Z.
Proof.
  exact (upload_second_stores Sample.cast Sample.calm Sample.owned_clip
           Sample.library_site _ _ owned_clip_uploads eq_refl).
Defined.

Lemma clip_uploads_first :
  video_run (upload_first Sample.calm Sample.clip) Sample.library_site
  = (Some (mkVideoResponse 200
             (VUploaded "Upload successful"
                (Video.mk 3 None "https://media/v.mp4" "v1" (Some "hello") None None 5000))),
     mkSite (mkWorld Sample.two_users [CUploadStream]
               [LogInfo "Upload route hit";
                LogInfo "Cloudinary upload successful: https://media/v.mp4"])
            [Sample.old_clip; Sample.new_clip; Sample.mid_clip;
             Video.mk 3 None "https://media/v.mp4" "v1" (Some "hello") None None 5000] 4
            [CVideoCreate]).
Proof. reflexivity. Defined.

Lemma upload_first_stores_witness :
  exists v result,
    mkVideoResponse 200
      (VUploaded "Upload successful"
         (Video.mk 3 None "https://media/v.mp4" "v1" (Some "hello") None None 5000))
    = mkVideoResponse 200 (VUploaded "Upload successful" v) /\
    [Sample.old_clip; Sample.new_clip; Sample.mid_clip;
     Video.mk 3 None "https://media/v.mp4" "v1" (Some "hello") None None 5000]
    = [Sample.old_clip; Sample.new_clip; Sample.mid_clip; v] /\
    cloudinary Sample.fine = inr result /\
    Video.url v = secure_url result /\
    Video.public_id v = public_id result /\
    Video.caption v = Some "hello" /\
    Video.songId v = None /\
    Video.location v = None /\
    Video.uploadedAt v = 5000%Z.
Proof.
  exact (upload_first_stores Sample.calm Sample.clip Sample.library_site _ _
           clip_uploads_first eq_refl).
Defined.

Lemma uploaded_video_is_listed_witness :
  exists mine all s1 s2,
    video_run (user_videos Sample.cast Sample.valid Sample.calm "00")
      (mkSite (mkWorld Sample.two_users [CUploadStream] [])
              [Sample.old_clip; Sample.new_clip; Sample.mid_clip; Sample.uploaded] 4
              [CFindById; CVideoCreate])
    = (Some (mkVideoResponse 200 (VList mine)), s1) /\
    In Sample.uploaded mine /\
    video_run (list_videos Sample.cast Sample.calm)
      (mkSite (mkWorld Sample.two_users [CUploadStream] [])
              [Sample.old_clip; Sample.new_clip; Sample.mid_clip; Sample.uploaded] 4
              [CFindById; CVideoCreate])
    = (Some (mkVideoResponse 200 (VList all)), s2) /\
    In Sample.uploaded all.
Proof.
  exact (uploaded_video_is_listed Sample.cast Sample.valid Sample.calm Sample.calm
           Sample.owned_clip "00" Sample.library_site _ _ _
           owned_clip_uploads eq_refl eq_refl eq_refl).
Defined.

(** The two unanswered uploads, on a sample: the media host has the
    file, the store refuses the video, and no response is sent. *)
Example unanswered_uploads :
  fst (video_run (upload_first Sample.create_down Sample.clip) Sample.library_site) = None /\
  fst (video_run (upload_second Sample.cast Sample.create_down Sample.owned_clip)
         Sample.library_site) = None.
Proof. split; reflexivity. Qed.
